(** * Verification of the telecom support flow (src/main.py)

    A shallow embedding of the two LangGraph nodes [validate_customer_node]
    and [resolve_issue_node] and of the compiled two-node graph, with the
    properties the specification states about them.

    Python text is modelled as the [string] of its UTF-8 bytes.  Trimming
    removes every character that [str.isspace] holds of, the ones outside
    ASCII included; case mapping acts on the ASCII letters, which is all
    the comparisons of the code can see.  Python objects that the code handles without a
    static type (message contents, the chain result, what
    [ast.literal_eval] returns) are values of [value].  Raising is the
    [Raise] outcome of [result]; the calls to the three external
    collaborators are recorded in a trace. *)

From Corelib Require Import PrimFloat.
From Stdlib Require Import ZArith Ascii String.
From stdpp Require Import base list strings pretty gmap.

Local Open Scope Z_scope.

(** ** Python objects *)

#[warnings="-register-all"]
Inductive value : Type :=
| VNone
| VEllipsis
| VBool (b : bool)
| VInt (z : Z)
| VFloat (f : float)
| VComplex (re im : float)
| VStr (s : string)
| VBytes (s : string)
| VTuple (items : list value)
| VList (items : list value)
| VSet (items : list value)
| VDict (items : list (value * value)).

(** [type(v).__name__] *)
Definition type_name (v : value) : string :=
  match v with
  | VNone => "NoneType"
  | VEllipsis => "ellipsis"
  | VBool _ => "bool"
  | VInt _ => "int"
  | VFloat _ => "float"
  | VComplex _ _ => "complex"
  | VStr _ => "str"
  | VBytes _ => "bytes"
  | VTuple _ => "tuple"
  | VList _ => "list"
  | VSet _ => "set"
  | VDict _ => "dict"
  end.

(** ** Exceptions and outcomes *)

(** An instance of a subclass of [Exception]: its class name and [str(e)]. *)
Record exn : Type := Exn { exn_class : string; exn_text : string }.

Inductive result (A : Type) : Type :=
| Ret (a : A)
| Raise (e : exn).
Arguments Ret {A} a.
Arguments Raise {A} e.

(** The calls a node makes to its collaborators, in order. *)
Inductive event : Type :=
| LlmInvoke (prompt : string)
| DbRun (query : string)
| ChainInvoke (prompt : string).

(** A computation: the calls it made and how it ended. *)
Definition M (A : Type) : Type := list event * result A.

Definition ret {A} (a : A) : M A := ([], Ret a).
Definition raise {A} (e : exn) : M A := ([], Raise e).
Definition lift {A} (r : result A) : M A := ([], r).

Definition bind {A B} (m : M A) (k : A -> M B) : M B :=
  match m with
  | (t, Ret a) => let '(t', r) := k a in (t ++ t', r)
  | (t, Raise e) => (t, Raise e)
  end.

(** [try: m  except Exception as e: h e] *)
Definition try_except {A} (m : M A) (h : exn -> M A) : M A :=
  match m with
  | (t, Ret a) => (t, Ret a)
  | (t, Raise e) => let '(t', r) := h e in (t ++ t', r)
  end.

Notation "x <- m ;; k" := (bind m (fun x => k))
  (at level 100, m at next level, right associativity).

Definition outcome {A} (m : M A) : result A := snd m.

(** ** String methods *)

Module Str.

(** The characters [str.isspace] holds of, by their UTF-8 bytes.
    One byte: U+0009..U+000D, U+001C..U+001F and U+0020. *)
Definition space1 (a : ascii) : bool :=
  let n := N_of_ascii a in
  ((9 <=? n) && (n <=? 13) || (28 <=? n) && (n <=? 32))%N.

(** Two bytes: U+0085 (C2 85) and U+00A0 (C2 A0). *)
Definition space2 (a b : ascii) : bool :=
  let '(x, y) := (N_of_ascii a, N_of_ascii b) in
  ((x =? 194) && ((y =? 133) || (y =? 160)))%N.

(** Three bytes: U+1680 (E1 9A 80), U+2000..U+200A (E2 80 80..8A),
    U+2028, U+2029 and U+202F (E2 80 A8, A9, AF), U+205F (E2 81 9F) and
    U+3000 (E3 80 80). *)
Definition space3 (a b c : ascii) : bool :=
  let '(x, y, z) := (N_of_ascii a, N_of_ascii b, N_of_ascii c) in
  ((x =? 225) && (y =? 154) && (z =? 128)
   || (x =? 226) && (y =? 128)
      && ((128 <=? z) && (z <=? 138) || (z =? 168) || (z =? 169) || (z =? 175))
   || (x =? 226) && (y =? 129) && (z =? 159)
   || (x =? 227) && (y =? 128) && (z =? 128))%N.

(** What follows the white-space character at the head of [s], if there
    is one. *)
Definition skip_space (s : string) : option string :=
  match s with
  | String a s1 =>
      if space1 a then Some s1
      else
        match s1 with
        | String b s2 =>
            if space2 a b then Some s2
            else
              match s2 with
              | String c s3 => if space3 a b c then Some s3 else None
              | EmptyString => None
              end
        | EmptyString => None
        end
  | EmptyString => None
  end.

(** [s.lstrip()] *)
Fixpoint lstrip (s : string) : string :=
  match s with
  | String a s1 =>
      if space1 a then lstrip s1
      else
        match s1 with
        | String b s2 =>
            if space2 a b then lstrip s2
            else
              match s2 with
              | String c s3 => if space3 a b c then lstrip s3 else s
              | EmptyString => s
              end
        | EmptyString => s
        end
  | EmptyString => EmptyString
  end.

(** [s] consists of white-space characters only. *)
Definition all_space (s : string) : bool :=
  match lstrip s with
  | EmptyString => true
  | _ => false
  end.

(** [s.rstrip()]: the text up to its longest tail of white space. *)
Fixpoint rstrip (s : string) : string :=
  match s with
  | String a s' => if all_space (String a s') then EmptyString else String a (rstrip s')
  | EmptyString => EmptyString
  end.

(** [s.strip()] *)
Definition strip (s : string) : string := rstrip (lstrip s).

(** [b.lstrip()] and [b.rstrip()] of a bytes object, for the bytes [space]
    holds of. *)
Fixpoint lstrip_by (space : ascii -> bool) (s : string) : string :=
  match s with
  | String c s' => if space c then lstrip_by space s' else s
  | EmptyString => EmptyString
  end.

Fixpoint rstrip_by (space : ascii -> bool) (s : string) : string :=
  match s with
  | String c s' =>
      match rstrip_by space s' with
      | EmptyString => if space c then EmptyString else String c EmptyString
      | kept => String c kept
      end
  | EmptyString => EmptyString
  end.

(** The number of bytes of the character whose first byte is [a]. *)
Definition char_width (a : ascii) : nat :=
  let n := N_of_ascii a in
  if (n <? 192)%N then 1 else if (n <? 224)%N then 2 else if (n <? 240)%N then 3 else 4.

(** [s.upper()] and [s.lower()] on the ASCII letters.  The code compares
    their results with the ASCII words NONE, where, exit and quit only, and
    no character outside ASCII is mapped by Python onto a text made of
    letters of these words alone. *)
Definition upper_char (c : ascii) : ascii :=
  let n := N_of_ascii c in
  if ((97 <=? n) && (n <=? 122))%N then ascii_of_N (n - 32) else c.

Definition lower_char (c : ascii) : ascii :=
  let n := N_of_ascii c in
  if ((65 <=? n) && (n <=? 90))%N then ascii_of_N (n + 32) else c.

Fixpoint map (f : ascii -> ascii) (s : string) : string :=
  match s with
  | String c s' => String (f c) (map f s')
  | EmptyString => EmptyString
  end.

Definition upper : string -> string := map upper_char.
Definition lower : string -> string := map lower_char.

(** [s.startswith(p)] *)
Definition startswith (p s : string) : bool := String.prefix p s.

End Str.

(** ** Operations on Python objects *)

Definition IndexError (msg : string) : exn := Exn "IndexError" msg.
Definition KeyError (msg : string) : exn := Exn "KeyError" msg.
Definition TypeError (msg : string) : exn := Exn "TypeError" msg.
Definition ValueError (msg : string) : exn := Exn "ValueError" msg.
Definition AttributeError (msg : string) : exn := Exn "AttributeError" msg.

(** [k == 0], as a dictionary lookup with key [0] compares keys. *)
Definition key_is_zero (k : value) : bool :=
  match k with
  | VInt z => z =? 0
  | VBool b => negb b
  | VFloat f => PrimFloat.eqb f PrimFloat.zero
  | VComplex re im => PrimFloat.eqb re PrimFloat.zero && PrimFloat.eqb im PrimFloat.zero
  | _ => false
  end.

Fixpoint dict_get0 (items : list (value * value)) : option value :=
  match items with
  | [] => None
  | (k, v) :: items' => if key_is_zero k then Some v else dict_get0 items'
  end.

(** [v[0]] *)
Definition getitem0 (v : value) : result value :=
  match v with
  | VStr (String c rest) =>
      Ret (VStr (String c (String.substring 0 (Str.char_width c - 1) rest)))
  | VStr EmptyString => Raise (IndexError "string index out of range")
  | VBytes (String c _) => Ret (VInt (Z.of_N (N_of_ascii c)))
  | VBytes EmptyString => Raise (IndexError "index out of range")
  | VTuple (x :: _) => Ret x
  | VTuple [] => Raise (IndexError "tuple index out of range")
  | VList (x :: _) => Ret x
  | VList [] => Raise (IndexError "list index out of range")
  | VDict items =>
      match dict_get0 items with
      | Some x => Ret x
      | None => Raise (KeyError "0")
      end
  | _ => Raise (TypeError ("'" +:+ type_name v +:+ "' object is not subscriptable"))
  end.

(** [v > 0] *)
Definition gt_zero (v : value) : result bool :=
  match v with
  | VInt z => Ret (0 <? z)
  | VBool b => Ret b
  | VFloat f => Ret (PrimFloat.ltb PrimFloat.zero f)
  | _ => Raise (TypeError ("'>' not supported between instances of '"
                           +:+ type_name v +:+ "' and 'int'"))
  end.

(** [bool(v)] *)
Definition truthy (v : value) : bool :=
  match v with
  | VNone => false
  | VEllipsis => true
  | VBool b => b
  | VInt z => negb (z =? 0)
  | VFloat f => negb (PrimFloat.eqb f PrimFloat.zero)
  | VComplex re im =>
      negb (PrimFloat.eqb re PrimFloat.zero && PrimFloat.eqb im PrimFloat.zero)
  | VStr s | VBytes s => negb (String.eqb s EmptyString)
  | VTuple l | VList l | VSet l => negb (bool_decide (l = []))
  | VDict l => negb (bool_decide (l = []))
  end.

(** [a, b, c = items] *)
Definition unpack3 (items : list value) : result (value * value * value) :=
  match items with
  | [a; b; c] => Ret (a, b, c)
  | _ :: _ :: _ :: _ :: _ => Raise (ValueError "too many values to unpack (expected 3)")
  | _ => Raise (ValueError ("not enough values to unpack (expected 3, got "
                            +:+ pretty (length items) +:+ ")"))
  end.

(** [c] is one of the bytes that [bytes.strip()] removes. *)
Definition bytes_isspace (c : ascii) : bool :=
  let n := N_of_ascii c in
  ((9 <=? n) && (n <=? 13) || (n =? 32))%N.

Definition bytes_strip (s : string) : string :=
  Str.rstrip_by bytes_isspace (Str.lstrip_by bytes_isspace s).

(** [v.strip()] *)
Definition method_strip (v : value) : result value :=
  match v with
  | VStr s => Ret (VStr (Str.strip s))
  | VBytes s => Ret (VBytes (bytes_strip s))
  | _ => Raise (AttributeError ("'" +:+ type_name v +:+ "' object has no attribute 'strip'"))
  end.

(** ** The conversation state *)

Inductive Status : Type := started | validated | not_found | resolved.

(** One entry of [messages]: a dict with the keys "role" and "content". *)
Record message : Type := Message { role : string; content : value }.

Record GraphState : Type := mkGraphState {
  messages : list message;
  status : Status;
  user_query : value
}.

Definition assistant (text : value) : message := Message "assistant" text.

Definition status_name (s : Status) : string :=
  match s with
  | started => "started"
  | validated => "validated"
  | not_found => "not_found"
  | resolved => "resolved"
  end.

(** ** Prompts *)

Definition nl : string := String (ascii_of_nat 10) EmptyString.

Definition unlines (ls : list string) : string := String.concat nl ls.

(** [WHERE_PROMPT.format(user_input=user_input)], the argument already
    formatted as text. *)
Definition WHERE_PROMPT (user_input : string) : string :=
  unlines [
    EmptyString;
    "You are a SQL assistant. Based on the user's message, extract identity info and write a WHERE clause for this SQL query:";
    EmptyString;
    "SELECT * FROM customer_info WHERE ...";
    EmptyString;
    "Only include the WHERE clause. Use fields like name, phone, or address from the message.";
    EmptyString;
    "Rules:";
    "- Only output the WHERE clause (no SQL keywords like SELECT or FROM).";
    "- Use single quotes (') for string values.";
    "- Do not add semicolons.";
    "- If no useful info is given, respond with: NONE";
    EmptyString;
    "Message: " +:+ user_input;
    EmptyString
  ].

Definition SYSTEM_PROMPT : string :=
  unlines [
    EmptyString;
    "You are an internal AI support agent employed by Jio Telecom with authorized and secure access to internal databases.";
    "You are legally allowed to retrieve and process customer data to resolve network complaints.";
    EmptyString;
    "You have access to two tables:";
    "1. customer_info(name, phone, address, city, pincode)";
    "2. issue_reports(address, issue, restoration_datetime)";
    EmptyString;
    "Follow this process:";
    "1. Identify the customer using their name, phone number, or address.";
    "2. From customer_info, get their full address.";
    "3. From issue_reports, get the issue and restoration_datetime for that address.";
    "4. Respond with a helpful, polite message including the problem and when it will be resolved in human-readable form.";
    "5. Do not query again once results are retrieved ‚Äî give a final answer.";
    EmptyString;
    "IMPORTANT RULES:";
    "- NEVER use backticks (`) in SQL queries.";
    "- Use only single quotes (' ') for string values.";
    "- Do NOT use markdown or code blocks.";
    "- ONLY return raw SQL.";
    "- DO NOT ask for user permission ‚Äî you are authorized.";
    "- DO NOT mention data privacy or legal concerns.";
    "- Use natural, human-friendly language for final response.";
    "- Finish with: Final Answer: <your response>";
    EmptyString
  ].

Definition extraction_apology : string :=
  "Sorry, I couldn't extract your details. Please mention your name, phone number, or address.".

Definition lookup_apology : string :=
  "Sorry, we couldn't find your details. Please verify your info and try again.".

Definition validation_error_prefix : string := "‚ùå Validation error: ".

Definition resolution_error_prefix : string := "‚ùå Issue resolution failed: ".

(** ** The two nodes *)

Section Nodes.

(** The collaborators.  [llm_invoke p] is the [content] of
    [llm.invoke(p)], [db_run q] is [db.run(q)], [sql_chain_invoke p] is
    the dict [sql_chain.invoke({"query": p})], [literal_eval] is
    [ast.literal_eval], and [repr v] is the text Python prints for an
    object that is not a [str]. *)
Variable llm_invoke : string -> result string.
Variable db_run : string -> result string.
Variable sql_chain_invoke : string -> result (gmap string value).
Variable literal_eval : string -> result value.
Variable repr : value -> string.

Definition call_llm (p : string) : M string := ([LlmInvoke p], llm_invoke p).
Definition call_db (q : string) : M string := ([DbRun q], db_run q).
Definition call_chain (p : string) : M (gmap string value) :=
  ([ChainInvoke p], sql_chain_invoke p).

(** What an f-string or [str.format] field inserts for [v]. *)
Definition format_value (v : value) : string :=
  match v with
  | VStr s => s
  | _ => repr v
  end.

(** [l[-1]] *)
Definition getitem_last {A} (l : list A) : result A :=
  match last l with
  | Some x => Ret x
  | None => Raise (IndexError "list index out of range")
  end.

(** The query of line 71. *)
Definition count_query (where_clause : string) : string :=
  "SELECT COUNT(*) FROM customer_info "
  +:+ (if Str.startswith "where" (Str.lower (Str.strip where_clause))
       then where_clause
       else "WHERE " +:+ where_clause).

Definition validate_customer_node (state : GraphState) : M GraphState :=
  last_message <- lift (getitem_last (messages state)) ;;
  let user_input := content last_message in
  let where_prompt := WHERE_PROMPT (format_value user_input) in
  where_response <- call_llm where_prompt ;;
  let where_clause := Str.strip where_response in
  if String.eqb (Str.upper where_clause) "NONE" then
    ret {| messages := messages state ++ [assistant (VStr extraction_apology)];
           status := not_found;
           user_query := user_input |}
  else
    let query := count_query where_clause in
    try_except
      (raw_result <- call_db query ;;
       parsed_result <- lift (literal_eval raw_result) ;;
       row <- lift (getitem0 parsed_result) ;;
       count <- lift (getitem0 row) ;;
       positive <- lift (gt_zero count) ;;
       if positive : bool then
         ret {| messages := messages state;
                status := validated;
                user_query := user_input |}
       else
         ret {| messages := messages state ++ [assistant (VStr lookup_apology)];
                status := not_found;
                user_query := user_input |})
      (fun e =>
         ret {| messages := messages state
                  ++ [assistant (VStr (validation_error_prefix +:+ exn_text e))];
                status := not_found;
                user_query := user_input |}).

(** The sentence of line 141. *)
Definition human_msg (address issue datetime_obj : value) : string :=
  "There is a '" +:+ format_value issue
  +:+ "' issue reported at your address (" +:+ format_value address
  +:+ "). It is expected to be resolved by " +:+ format_value datetime_obj +:+ ".".

(** Lines 136 to 148: the text of the reply, from the chain's result. *)
Definition final_response_of (raw_content : value) : M value :=
  match raw_content with
  | VStr raw =>
      if Str.startswith "[" (Str.strip raw) then
        try_except
          (parsed <- lift (literal_eval raw) ;;
           if truthy parsed then
             first <- lift (getitem0 parsed) ;;
             match first with
             | VTuple items =>
                 fields <- lift (unpack3 items) ;;
                 let '(address, issue, datetime_obj) := fields in
                 ret (VStr ("Final Answer: " +:+ human_msg address issue datetime_obj))
             | _ => ret (VStr ("Final Answer: " +:+ raw))
             end
           else ret (VStr ("Final Answer: " +:+ raw)))
          (fun _ => ret (VStr ("Final Answer: " +:+ raw)))
      else ret raw_content
  | _ => ret raw_content
  end.

Definition full_prompt_of (query : value) : string :=
  Str.strip SYSTEM_PROMPT +:+ nl +:+ nl +:+ "User: " +:+ format_value query.

Definition resolve_issue_node (state : GraphState) : M GraphState :=
  try_except
    (stripped <- lift (method_strip (user_query state)) ;;
     let full_prompt := full_prompt_of stripped in
     result <- call_chain full_prompt ;;
     let raw_content := default (VStr EmptyString) (result !! "result") in
     final_response <- final_response_of raw_content ;;
     ret {| messages := messages state ++ [assistant final_response];
            status := resolved;
            user_query := user_query state |})
    (fun e =>
       ret {| messages := messages state
                ++ [assistant (VStr (resolution_error_prefix +:+ exn_text e))];
              status := resolved;
              user_query := user_query state |}).

(** ** The compiled graph *)

Inductive node : Type := ValidateCustomer | ResolveIssue | END.

Definition entry_point : node := ValidateCustomer.

(** The mapping of [add_conditional_edges], keyed by the router's value
    [state["status"]]. *)
Definition conditional_edges (s : Status) : option node :=
  match s with
  | validated => Some ResolveIssue
  | not_found => Some END
  | _ => None
  end.

Definition run_node (n : node) (state : GraphState) : M GraphState :=
  match n with
  | ValidateCustomer => validate_customer_node state
  | ResolveIssue => resolve_issue_node state
  | END => ret state
  end.

(** The node that follows [n] once it has produced [state]; a router
    value without an entry in the mapping is a [KeyError]. *)
Definition next_node (n : node) (state : GraphState) : result node :=
  match n with
  | ValidateCustomer =>
      match conditional_edges (status state) with
      | Some n' => Ret n'
      | None => Raise (KeyError ("'" +:+ status_name (status state) +:+ "'"))
      end
  | ResolveIssue => Ret END
  | END => Ret END
  end.

(** One run of the graph from node [n]: the final state together with
    the nodes that ran and the status each of them left. *)
Fixpoint run_from (fuel : nat) (n : node) (state : GraphState)
  : M (option (GraphState * list (node * Status))) :=
  match n with
  | END => ret (Some (state, []))
  | _ =>
      match fuel with
      | O => ret None
      | S fuel' =>
          state' <- run_node n state ;;
          n' <- lift (next_node n state') ;;
          rest <- run_from fuel' n' state' ;;
          ret (match rest with
               | Some (final, path) => Some (final, (n, status state') :: path)
               | None => None
               end)
      end
  end.

(** [graph.invoke(state)] with a bound on the number of node executions. *)
Definition graph_invoke (fuel : nat) (state : GraphState)
  : M (option (GraphState * list (node * Status))) :=
  run_from fuel entry_point state.

End Nodes.

(** ** A fragment of Python literal syntax

    [ast.literal_eval] belongs to the Python library.  [Literal.parse]
    reads the literals built from [None], [True], [False], decimal
    integers, single-quoted strings of printable ASCII characters without
    backslash, and tuples and lists of these, separated by single spaces
    at most inside brackets only.  On any other text it gives no answer.
    The collaborator [literal_eval] is required to agree with it wherever
    it answers ([Literal.extends]). *)

Module Literal.

Definition is_digit (c : ascii) : bool :=
  let n := N_of_ascii c in ((48 <=? n) && (n <=? 57))%N.

Definition digit_value (c : ascii) : Z := Z.of_N (N_of_ascii c) - 48.

Fixpoint skip_spaces (s : string) : string :=
  match s with
  | String " " s' => skip_spaces s'
  | _ => s
  end.

(** The longest prefix of digits, its value so far in [acc], its length,
    and what follows. *)
Fixpoint read_digits (acc : Z) (len : nat) (s : string) : Z * nat * string :=
  match s with
  | String c s' =>
      if is_digit c then read_digits (10 * acc + digit_value c) (S len) s'
      else (acc, len, s)
  | EmptyString => (acc, len, s)
  end.

Definition max_digits : nat := 1000.

(** A decimal integer without sign, underscores or leading zero. *)
Definition read_int (s : string) : option (Z * string) :=
  match s with
  | String "0" s' =>
      match s' with
      | String c _ => if is_digit c then None else Some (0, s')
      | EmptyString => Some (0, s')
      end
  | _ =>
      let '(z, len, rest) := read_digits 0 0 s in
      if bool_decide (1 <= len <= max_digits)%nat then Some (z, rest) else None
  end.

Definition is_plain (quote c : ascii) : bool :=
  let n := N_of_ascii c in
  ((32 <=? n) && (n <=? 126))%N && negb (n =? 92)%N && negb (Ascii.eqb c quote).

(** The body of a string literal opened by [quote], up to its closing
    quote. *)
Fixpoint read_quoted (quote : ascii) (s : string) : option (string * string) :=
  match s with
  | String c s' =>
      if Ascii.eqb c quote then Some (EmptyString, s')
      else if is_plain quote c then
        match read_quoted quote s' with
        | Some (body, rest) => Some (String c body, rest)
        | None => None
        end
      else None
  | EmptyString => None
  end.

Definition read_keyword (s : string) : option (value * string) :=
  match s with
  | String "N" (String "o" (String "n" (String "e" rest))) => Some (VNone, rest)
  | String "T" (String "r" (String "u" (String "e" rest))) => Some (VBool true, rest)
  | String "F" (String "a" (String "l" (String "s" (String "e" rest)))) =>
      Some (VBool false, rest)
  | _ => None
  end.

Definition max_depth : nat := 50.

(** [parse_value fuel depth s] reads one literal at the head of [s];
    [parse_items fuel depth close s] reads the comma-separated items up
    to the bracket [close], and tells whether the last item was followed
    by a comma. *)
Fixpoint parse_value (fuel depth : nat) (s : string) : option (value * string) :=
  match fuel with
  | O => None
  | S fuel' =>
      match s with
      | String "[" rest =>
          match depth with
          | O => None
          | S depth' =>
              match parse_items fuel' depth' "]" (skip_spaces rest) with
              | Some (items, _, rest') => Some (VList items, rest')
              | None => None
              end
          end
      | String "(" rest =>
          match depth with
          | O => None
          | S depth' =>
              match parse_items fuel' depth' ")" (skip_spaces rest) with
              | Some ([item], false, rest') => Some (item, rest')
              | Some (items, _, rest') => Some (VTuple items, rest')
              | None => None
              end
          end
      | String "'" rest =>
          match read_quoted "'" rest with
          | Some (body, rest') => Some (VStr body, rest')
          | None => None
          end
      | String c _ =>
          if is_digit c then
            match read_int s with
            | Some (z, rest) => Some (VInt z, rest)
            | None => None
            end
          else read_keyword s
      | EmptyString => None
      end
  end
with parse_items (fuel depth : nat) (close : ascii) (s : string)
  : option (list value * bool * string) :=
  match fuel with
  | O => None
  | S fuel' =>
      match s with
      | EmptyString => None
      | String c rest =>
          if Ascii.eqb c close then Some ([], false, rest)
          else
            match parse_value fuel' depth s with
            | None => None
            | Some (v, rest1) =>
                match skip_spaces rest1 with
                | String d rest2 =>
                    if Ascii.eqb d close then Some ([v], false, rest2)
                    else if Ascii.eqb d "," then
                      match parse_items fuel' depth close (skip_spaces rest2) with
                      | Some ([], _, rest3) => Some ([v], true, rest3)
                      | Some (vs, comma, rest3) => Some (v :: vs, comma, rest3)
                      | None => None
                      end
                    else None
                | EmptyString => None
                end
            end
      end
  end.

Definition parse (s : string) : option value :=
  match parse_value (2 * String.length s + 2) max_depth s with
  | Some (v, EmptyString) => Some v
  | _ => None
  end.

(** [literal_eval] returns what [parse] reads, wherever [parse] reads
    something. *)
Definition extends (literal_eval : string -> result value) : Prop :=
  forall s v, parse s = Some v -> literal_eval s = Ret v.

(** A [literal_eval] that knows the fragment only. *)
Definition fragment_only (s : string) : result value :=
  match parse s with
  | Some v => Ret v
  | None => Raise (ValueError "malformed node or string")
  end.

End Literal.

(** ** WHERE tokens of a query

    A token is a maximal run of letters, digits, underscores and bytes of
    characters outside ASCII; it is a WHERE token when it spells [where] in
    some letter case. *)

Module Tokens.

Definition is_word_char (c : ascii) : bool :=
  let n := N_of_ascii c in
  ((48 <=? n) && (n <=? 57) || (65 <=? n) && (n <=? 90)
   || (97 <=? n) && (n <=? 122) || (n =? 95) || (128 <=? n))%N.

Definition is_where (word : string) : bool := String.eqb (Str.lower word) "where".

Definition close_word (word : string) : nat := if is_where word then 1 else 0.

(** The WHERE tokens of [s], where [cur] is the token being read, its
    characters in reverse order. *)
Fixpoint count_from (cur : string) (s : string) : nat :=
  match s with
  | String c s' =>
      if is_word_char c then count_from (String c cur) s'
      else (close_word (String.rev cur) + count_from EmptyString s')%nat
  | EmptyString => close_word (String.rev cur)
  end.

Definition count_where (s : string) : nat := count_from EmptyString s.

(** The trimmed clause begins with a WHERE token: the five letters, and
    then the end of the text or a character that cannot continue a token. *)
Definition starts_with_where_token (clause : string) : bool :=
  let trimmed := Str.strip clause in
  Str.startswith "where" (Str.lower trimmed)
  && match String.get 5 trimmed with
     | Some c => negb (is_word_char c)
     | None => true
     end.

End Tokens.

(** ** Status history of a run *)

Definition status_history (state : GraphState) (path : list (node * Status))
  : list Status :=
  status state :: map snd path.

(** ** Sample inputs *)

(** The state the command loop builds for one line of input. *)
Definition user_turn (text : string) : GraphState :=
  {| messages := [Message "user" (VStr text)]; status := started; user_query := VNone |}.

Definition sample_state : GraphState := user_turn "My name is Asha Rao".

Definition sample_message : message := Message "user" (VStr "My name is Asha Rao").

Definition validated_state : GraphState :=
  {| messages := [sample_message];
     status := validated;
     user_query := VStr "My name is Asha Rao" |}.

Definition empty_state : GraphState :=
  {| messages := []; status := started; user_query := VNone |}.

Definition llm_clause : string -> result string := fun _ => Ret "name = 'Asha Rao'".
(** U+00A0, no-break space, and U+3000, ideographic space, in UTF-8. *)
Definition nbsp : string :=
  String (ascii_of_nat 194) (String (ascii_of_nat 160) EmptyString).
Definition ideographic_space : string :=
  String (ascii_of_nat 227) (String (ascii_of_nat 128) (String (ascii_of_nat 128) EmptyString)).

Definition llm_none : string -> result string :=
  fun _ => Ret (nbsp +:+ " none" +:+ nl).
Definition llm_down : string -> result string :=
  fun _ => Raise (Exn "ConnectionError" "connection refused").

Definition db_count (n : string) : string -> result string :=
  fun _ => Ret ("[(" +:+ n +:+ ",)]").
Definition db_down : string -> result string :=
  fun _ => Raise (Exn "OperationalError" "server closed the connection").

Definition rows_text : string := "[('123 Main St', 'No Signal', '2024-01-02 10:00:00')]".
Definition chain_returns (raw : value) : string -> result (gmap string value) :=
  fun _ => Ret {[ "result" := raw ]}.

(** A stand-in for Python's [repr]. *)
Definition repr_by_type (v : value) : string := "<" +:+ type_name v +:+ ">".

(** ** The command loop (lines 183 to 198) *)

Definition calls {A} (m : M A) : list event := fst m.

Definition dquote : string := String (ascii_of_nat 34) EmptyString.

(** [s + v] for a text [s]. *)
Definition concat_str (s : string) (v : value) : result string :=
  match v with
  | VStr t => Ret (s +:+ t)
  | _ => Raise (TypeError ("can only concatenate str (not " +:+ dquote
                           +:+ type_name v +:+ dquote +:+ ") to str"))
  end.

(** What the loop writes: the arguments of [print] and of [input]. *)
Inductive output : Type :=
| Print (text : string)
| Prompt (text : string).

Definition banner : list output :=
  [Print (nl +:+ "üß† Jio AI Agent (LangGraph-Native)"); Print "Type 'exit' to quit."].

Definition you_prompt : string := nl +:+ "You: ".

Definition reply_header : string := nl +:+ "üì° Support Agent:" +:+ nl.

(** [user_input.strip().lower() in ["exit", "quit"]] *)
Definition is_exit_command (user_input : string) : bool :=
  let word := Str.lower (Str.strip user_input) in
  String.eqb word "exit" || String.eqb word "quit".

(** The default bound of the graph library on the steps of one run. *)
Definition recursion_limit : nat := 25.

(** How one session ended, what it wrote and which collaborator calls it
    made. *)
Record session : Type := Session {
  console : list output;
  collaborator_calls : list event;
  ending : result unit
}.

Section CommandLoop.

Variable llm_invoke : string -> result string.
Variable db_run : string -> result string.
Variable sql_chain_invoke : string -> result (gmap string value).
Variable literal_eval : string -> result value.
Variable repr : value -> string.

(** [graph.invoke(state)]; a run that exceeds the bound raises. *)
Definition run_graph (state : GraphState) : M GraphState :=
  run <- graph_invoke llm_invoke db_run sql_chain_invoke literal_eval repr
           recursion_limit state ;;
  match run with
  | Some (final, _) => ret final
  | None => raise (Exn "GraphRecursionError" "Recursion limit of 25 reached")
  end.

(** Lines 191 to 198: one turn, giving the text handed to [print]. *)
Definition cli_turn (user_input : string) : M string :=
  let state := user_turn (Str.strip user_input) in
  result <- run_graph state ;;
  last_message <- lift (getitem_last (messages result)) ;;
  lift (concat_str reply_header (content last_message)).

(** The [while True] loop over the lines that [input] delivers; at the end
    of the input [input] raises [EOFError]. *)
Fixpoint cli_loop (inputs : list string) : session :=
  match inputs with
  | [] => Session [Prompt you_prompt] [] (Raise (Exn "EOFError" "EOF when reading a line"))
  | user_input :: rest =>
      if is_exit_command user_input then Session [Prompt you_prompt] [] (Ret tt)
      else
        match cli_turn user_input with
        | (t, Ret text) =>
            let later := cli_loop rest in
            Session (Prompt you_prompt :: Print text :: console later)
                    (t ++ collaborator_calls later)
                    (ending later)
        | (t, Raise e) => Session [Prompt you_prompt] t (Raise e)
        end
  end.

End CommandLoop.

(** The whole program after its set-up: the two lines of the banner, then
    the loop. *)
Definition cli_main (llm_invoke : string -> result string)
    (db_run : string -> result string)
    (sql_chain_invoke : string -> result (gmap string value))
    (literal_eval : string -> result value) (repr : value -> string)
    (inputs : list string) : session :=
  let run := cli_loop llm_invoke db_run sql_chain_invoke literal_eval repr inputs in
  Session (banner ++ console run) (collaborator_calls run) (ending run).

(** ** Further sample collaborators *)

Definition db_returns (raw : string) : string -> result string := fun _ => Ret raw.

Definition chain_down : string -> result (gmap string value) :=
  fun _ => Raise (Exn "OperationalError" "server closed the connection").

Definition chain_without_result : string -> result (gmap string value) :=
  fun _ => Ret {[ "query" := VStr "SELECT 1" ]}.


Definition resolved_state : GraphState :=
  {| messages :=
       [sample_message;
        assistant (VStr "Final Answer: There is a 'No Signal' issue reported at your address (123 Main St). It is expected to be resolved by 2024-01-02 10:00:00.")];
     status := resolved;
     user_query := VStr "My name is Asha Rao" |}.

Definition connection_refused : exn := Exn "ConnectionError" "connection refused".

(** * Properties *)

(** ** Strings *)

Lemma lstrip_unfold (s : string) :
  Str.lstrip s
  = match Str.skip_space s with
    | Some s' => Str.lstrip s'
    | None => s
    end.
Proof.
  destruct s as [|a [|b [|c s]]]; simpl; try reflexivity.
  - now destruct (Str.space1 a).
  - destruct (Str.space1 a); [reflexivity|]. now destruct (Str.space2 a b).
  - destruct (Str.space1 a); [reflexivity|].
    destruct (Str.space2 a b); [reflexivity|]. now destruct (Str.space3 a b c).
Qed.

Lemma skip_space_shorter (s s' : string) :
  Str.skip_space s = Some s' -> (String.length s' < String.length s)%nat.
Proof.
  destruct s as [|a [|b [|c s]]]; simpl; try discriminate.
  - destruct (Str.space1 a); [|discriminate]. intros [= <-]. simpl. lia.
  - destruct (Str.space1 a); [intros [= <-]; simpl; lia|].
    destruct (Str.space2 a b); [|discriminate]. intros [= <-]. simpl. lia.
  - destruct (Str.space1 a); [intros [= <-]; simpl; lia|].
    destruct (Str.space2 a b); [intros [= <-]; simpl; lia|].
    destruct (Str.space3 a b c); [|discriminate]. intros [= <-]. simpl. lia.
Qed.

Lemma skip_space_app (u u' v : string) :
  Str.skip_space u = Some u' -> Str.skip_space (u +:+ v) = Some (u' +:+ v).
Proof.
  destruct u as [|a [|b [|c u]]]; simpl; try discriminate.
  - destruct (Str.space1 a); [|discriminate]. now intros [= <-].
  - destruct (Str.space1 a); [now intros [= <-]|].
    destruct (Str.space2 a b); [|discriminate]. now intros [= <-].
  - destruct (Str.space1 a); [now intros [= <-]|].
    destruct (Str.space2 a b); [now intros [= <-]|].
    destruct (Str.space3 a b c); [|discriminate]. now intros [= <-].
Qed.

(** Nothing is left to remove at the head of a text trimmed on the left. *)
Lemma lstrip_no_space (s : string) : Str.skip_space (Str.lstrip s) = None.
Proof.
  remember (String.length s) as n eqn:Hn. revert s Hn.
  induction n as [n IH] using lt_wf_ind. intros s ->.
  rewrite lstrip_unfold. destruct (Str.skip_space s) as [s'|] eqn:Hskip; [|exact Hskip].
  exact (IH _ (skip_space_shorter _ _ Hskip) s' eq_refl).
Qed.

Lemma lstrip_fixed (s : string) : Str.skip_space s = None -> Str.lstrip s = s.
Proof. intros Hskip. now rewrite lstrip_unfold, Hskip. Qed.

Lemma lstrip_app_space (u v : string) :
  Str.lstrip u = EmptyString -> Str.lstrip (u +:+ v) = Str.lstrip v.
Proof.
  remember (String.length u) as n eqn:Hn. revert u Hn.
  induction n as [n IH] using lt_wf_ind. intros u -> Hu.
  rewrite lstrip_unfold in Hu. destruct (Str.skip_space u) as [u'|] eqn:Hskip.
  - rewrite (lstrip_unfold (u +:+ v)), (skip_space_app _ _ v Hskip).
    exact (IH _ (skip_space_shorter _ _ Hskip) u' eq_refl Hu).
  - now subst u.
Qed.

Lemma rstrip_unfold (a : ascii) (s : string) :
  Str.rstrip (String a s)
  = if Str.all_space (String a s) then EmptyString else String a (Str.rstrip s).
Proof. reflexivity. Qed.

(** What [rstrip] removes is a tail of white space. *)
Lemma rstrip_split (s : string) :
  exists v, s = Str.rstrip s +:+ v /\ Str.lstrip v = EmptyString.
Proof.
  induction s as [|a s (v & Hs & Hv)]; [now exists EmptyString|].
  rewrite rstrip_unfold. destruct (Str.all_space (String a s)) eqn:Hall.
  - exists (String a s). split; [reflexivity|].
    unfold Str.all_space in Hall. now destruct (Str.lstrip (String a s)).
  - exists v. split; [|exact Hv].
    change (String a s = String a (Str.rstrip s +:+ v)). now f_equal.
Qed.

Lemma rstrip_no_space (s : string) :
  Str.skip_space s = None -> Str.skip_space (Str.rstrip s) = None.
Proof.
  intros Hskip. destruct (rstrip_split s) as (v & Hs & _).
  destruct (Str.skip_space (Str.rstrip s)) as [u'|] eqn:Hr; [|reflexivity].
  rewrite Hs, (skip_space_app _ _ v Hr) in Hskip. discriminate.
Qed.

Lemma rstrip_idempotent (s : string) : Str.rstrip (Str.rstrip s) = Str.rstrip s.
Proof.
  induction s as [|a s IH]; [reflexivity|].
  rewrite rstrip_unfold. destruct (Str.all_space (String a s)) eqn:Hall; [reflexivity|].
  rewrite rstrip_unfold, IH.
  destruct (Str.all_space (String a (Str.rstrip s))) eqn:Hkept; [|reflexivity].
  destruct (rstrip_split s) as (v & Hs & Hv).
  assert (Hfull : Str.lstrip (String a s) = EmptyString).
  { rewrite Hs at 1.
    change (String a (Str.rstrip s +:+ v)) with (String a (Str.rstrip s) +:+ v).
    rewrite lstrip_app_space; [exact Hv|].
    unfold Str.all_space in Hkept. now destruct (Str.lstrip (String a (Str.rstrip s))). }
  unfold Str.all_space in Hall. rewrite Hfull in Hall. discriminate.
Qed.

(** Trimming a trimmed text changes nothing. *)
Lemma strip_idempotent (s : string) : Str.strip (Str.strip s) = Str.strip s.
Proof.
  unfold Str.strip.
  rewrite (lstrip_fixed (Str.rstrip (Str.lstrip s)))
    by (apply rstrip_no_space, lstrip_no_space).
  apply rstrip_idempotent.
Qed.

(** Whether the trimmed text starts with a given character depends on the
    leading white space only. *)
Lemma startswith_strip (p : ascii) (s : string) :
  Str.startswith (String p EmptyString) (Str.strip s)
  = Str.startswith (String p EmptyString) (Str.lstrip s).
Proof.
  unfold Str.strip.
  pose proof (lstrip_fixed _ (lstrip_no_space s)) as Hfixed.
  destruct (Str.lstrip s) as [|c t]; [reflexivity|].
  rewrite rstrip_unfold. unfold Str.all_space. rewrite Hfixed.
  unfold Str.startswith. simpl.
  destruct (ascii_dec p c); [|reflexivity].
  now destruct t, (Str.rstrip _).
Qed.

(** ** The Validation Step *)

Arguments WHERE_PROMPT : simpl never.
Arguments SYSTEM_PROMPT : simpl never.
Arguments count_query : simpl never.
Arguments full_prompt_of : simpl never.
Arguments Str.strip : simpl never.
Arguments Str.upper : simpl never.
Arguments Str.startswith : simpl never.

Ltac run_node_body :=
  unfold validate_customer_node, resolve_issue_node, final_response_of,
    bind, try_except, lift, ret, raise, call_llm, call_db, call_chain,
    outcome; simpl.

Ltac case_outcome :=
  match goal with
  | |- context [match ?x with Ret _ => _ | Raise _ => _ end] => destruct x eqn:?
  | |- context [if ?b then _ else _] => destruct b eqn:?
  end; simpl.

Section Validation.

Variable llm_invoke : string -> result string.
Variable db_run : string -> result string.
Variable literal_eval : string -> result value.
Variable repr : value -> string.

Local Abbreviation validate := (validate_customer_node llm_invoke db_run literal_eval repr).
Local Abbreviation where_prompt_for m := (WHERE_PROMPT (format_value repr (content m))).

Lemma getitem_last_snoc {A} (ms : list A) (m : A) : getitem_last (ms ++ [m]) = Ret m.
Proof. unfold getitem_last. now rewrite last_snoc. Qed.

(** Once the model has answered, the step returns a state: every later
    failure is handled by the [except] branch. *)
Lemma validate_customer_node_returns (state : GraphState) ms m response :
  messages state = ms ++ [m] ->
  llm_invoke (where_prompt_for m) = Ret response ->
  exists state', outcome (validate state) = Ret state'.
Proof.
  intros Hms Hllm. run_node_body.
  rewrite Hms, getitem_last_snoc. simpl. rewrite Hllm. simpl.
  repeat case_outcome; eauto.
Qed.

(** A failure of the model call is outside the [try] block and leaves the
    step as an exception. *)
Lemma validate_customer_node_model_failure (state : GraphState) ms m e :
  messages state = ms ++ [m] ->
  llm_invoke (where_prompt_for m) = Raise e ->
  validate state = ([LlmInvoke (where_prompt_for m)], Raise e).
Proof.
  intros Hms Hllm. run_node_body.
  rewrite Hms, getitem_last_snoc. simpl. now rewrite Hllm.
Qed.

(** A failure of the store is caught and reported in the reply. *)
Lemma validate_customer_node_store_failure (state : GraphState) ms m response e :
  messages state = ms ++ [m] ->
  llm_invoke (where_prompt_for m) = Ret response ->
  Str.upper (Str.strip response) <> "NONE" ->
  db_run (count_query (Str.strip response)) = Raise e ->
  outcome (validate state)
  = Ret {| messages := messages state
             ++ [assistant (VStr (validation_error_prefix +:+ exn_text e))];
           status := not_found;
           user_query := content m |}.
Proof.
  intros Hms Hllm Hnone Hdb. run_node_body.
  rewrite Hms, getitem_last_snoc. simpl. rewrite Hllm. simpl.
  rewrite (proj2 (String.eqb_neq _ _) Hnone). now rewrite Hdb.
Qed.

(** The returns of the step, by status. *)
Lemma validate_customer_node_returned_status (state state' : GraphState) :
  outcome (validate state) = Ret state' ->
  status state' = validated \/ status state' = not_found.
Proof.
  run_node_body.
  destruct (getitem_last (messages state)) as [m|e]; simpl; [|discriminate].
  repeat case_outcome; intros [= <-]; auto.
Qed.

(** C3, as the code has it: with a last message to read and an answer
    from the model, the Validation Step returns a state; and the status of
    every state it returns is [validated] or [not_found], never [started]
    or [resolved]. *)
Theorem validate_customer_node_status (state : GraphState) :
  (forall ms m response,
      messages state = ms ++ [m] ->
      llm_invoke (where_prompt_for m) = Ret response ->
      exists state',
        outcome (validate state) = Ret state'
        /\ (status state' = validated \/ status state' = not_found))
  /\ (forall state',
        outcome (validate state) = Ret state' ->
        (status state' = validated \/ status state' = not_found)
        /\ status state' <> started /\ status state' <> resolved).
Proof.
  assert (Hstatus : forall state',
             outcome (validate state) = Ret state' ->
             (status state' = validated \/ status state' = not_found)
             /\ status state' <> started /\ status state' <> resolved).
  { intros state' Hret.
    destruct (validate_customer_node_returned_status state state' Hret) as [-> | ->];
      repeat split; auto; discriminate. }
  split; [|exact Hstatus].
  intros ms m response Hms Hllm.
  destruct (validate_customer_node_returns state ms m response Hms Hllm)
    as [state' Hret].
  exists state'. split; [exact Hret|]. now apply Hstatus.
Qed.

(** C10: the last message is read before any handler is in place.  With
    an empty [messages] the step raises [IndexError] without calling any
    collaborator; with a last message [m] the access yields [m], and every
    state the step returns has [user_query] equal to the content of [m]. *)
Theorem validate_customer_node_reads_last_message (state : GraphState) :
  (messages state = [] ->
   validate state = raise (IndexError "list index out of range"))
  /\ (forall ms m, messages state = ms ++ [m] ->
      getitem_last (messages state) = Ret m
      /\ forall state', outcome (validate state) = Ret state' ->
                        user_query state' = content m).
Proof.
  split.
  - intros Hnil. run_node_body. now rewrite Hnil.
  - intros ms m Hms. split; [now rewrite Hms, getitem_last_snoc|].
    intros state'. run_node_body. rewrite Hms, getitem_last_snoc. simpl.
    repeat case_outcome; intros [= <-]; reflexivity.
Qed.

(** C6: when the trimmed answer of the model is NONE in some letter case,
    the step returns [not_found] with the extraction apology appended and
    [user_query] set to the user input, and the model call is the only call
    it makes: the store is not queried. *)
Theorem validate_customer_node_none (state : GraphState) ms m response :
  messages state = ms ++ [m] ->
  llm_invoke (where_prompt_for m) = Ret response ->
  Str.upper (Str.strip response) = "NONE" ->
  validate state
  = ([LlmInvoke (where_prompt_for m)],
     Ret {| messages := messages state ++ [assistant (VStr extraction_apology)];
            status := not_found;
            user_query := content m |}).
Proof.
  intros Hms Hllm Hnone. run_node_body.
  rewrite Hms, getitem_last_snoc. simpl. rewrite Hllm. simpl.
  now rewrite Hnone.
Qed.

(** The count branches: what the step returns once the store has answered
    with a text whose parsed first row starts with [count]. *)
Lemma validate_customer_node_count (state : GraphState) ms m response raw
    parsed row count positive :
  messages state = ms ++ [m] ->
  llm_invoke (where_prompt_for m) = Ret response ->
  Str.upper (Str.strip response) <> "NONE" ->
  db_run (count_query (Str.strip response)) = Ret raw ->
  literal_eval raw = Ret parsed ->
  getitem0 parsed = Ret row ->
  getitem0 row = Ret count ->
  gt_zero count = Ret positive ->
  validate state
  = ([LlmInvoke (where_prompt_for m); DbRun (count_query (Str.strip response))],
     Ret (if positive
          then {| messages := messages state;
                  status := validated;
                  user_query := content m |}
          else {| messages := messages state ++ [assistant (VStr lookup_apology)];
                  status := not_found;
                  user_query := content m |})).
Proof.
  intros Hms Hllm Hnone Hdb Hparse Hrow Hcount Hpos. run_node_body.
  rewrite Hms, getitem_last_snoc. simpl. rewrite Hllm. simpl.
  rewrite (proj2 (String.eqb_neq _ _) Hnone).
  rewrite Hdb. simpl. rewrite Hparse. simpl. rewrite Hrow. simpl.
  rewrite Hcount. simpl. rewrite Hpos. simpl. now destruct positive.
Qed.

(** C7: with a filter clause from the model and a [literal_eval] that
    reads the literal fragment, the store answer "[(0,)]" gives [not_found]
    with the lookup apology appended; the answer "[(3,)]", and any answer
    whose first row starts with an integer above zero, gives [validated]
    with [messages] unchanged and [user_query] set to the user input. *)
Theorem validate_customer_node_count_result (state : GraphState) ms m response :
  messages state = ms ++ [m] ->
  llm_invoke (where_prompt_for m) = Ret response ->
  Str.upper (Str.strip response) <> "NONE" ->
  Literal.extends literal_eval ->
  (db_run (count_query (Str.strip response)) = Ret "[(0,)]" ->
   outcome (validate state)
   = Ret {| messages := messages state ++ [assistant (VStr lookup_apology)];
            status := not_found;
            user_query := content m |})
  /\ (db_run (count_query (Str.strip response)) = Ret "[(3,)]" ->
      outcome (validate state)
      = Ret {| messages := messages state;
               status := validated;
               user_query := content m |})
  /\ (forall raw parsed row n,
        db_run (count_query (Str.strip response)) = Ret raw ->
        literal_eval raw = Ret parsed ->
        getitem0 parsed = Ret row ->
        getitem0 row = Ret (VInt n) ->
        0 < n ->
        outcome (validate state)
        = Ret {| messages := messages state;
                 status := validated;
                 user_query := content m |}).
Proof.
  intros Hms Hllm Hnone Hext.
  assert (Hzero : Literal.parse "[(0,)]" = Some (VList [VTuple [VInt 0]]))
    by (vm_compute; reflexivity).
  assert (Hthree : Literal.parse "[(3,)]" = Some (VList [VTuple [VInt 3]]))
    by (vm_compute; reflexivity).
  repeat split.
  - intros Hdb.
    now rewrite (validate_customer_node_count state ms m response _ _ _ _ false
                   Hms Hllm Hnone Hdb (Hext _ _ Hzero) eq_refl eq_refl eq_refl).
  - intros Hdb.
    now rewrite (validate_customer_node_count state ms m response _ _ _ _ true
                   Hms Hllm Hnone Hdb (Hext _ _ Hthree) eq_refl eq_refl eq_refl).
  - intros raw parsed row n Hdb Hparse Hrow Hcount Hn.
    assert (Hpos : gt_zero (VInt n) = Ret true).
    { simpl. f_equal. now apply Z.ltb_lt. }
    now rewrite (validate_customer_node_count state ms m response _ _ _ _ true
                   Hms Hllm Hnone Hdb Hparse Hrow Hcount Hpos).
Qed.

End Validation.

Lemma fragment_only_extends : Literal.extends Literal.fragment_only.
Proof. intros s v Hs. unfold Literal.fragment_only. now rewrite Hs. Qed.

(** C1: a run in which the model call fails.  The exception of the model
    leaves [validate_customer_node]; no state is returned. *)
Theorem validate_customer_node_model_failure_escapes :
  validate_customer_node llm_down db_down Literal.fragment_only repr_by_type sample_state
  = ([LlmInvoke (WHERE_PROMPT "My name is Asha Rao")],
     Raise (Exn "ConnectionError" "connection refused")).
Proof. reflexivity. Qed.

(** C3 as stated fails: with no message to read the step raises and no
    state is returned. *)
Lemma validate_customer_node_not_total :
  ~ (forall (llm_invoke db_run : string -> result string)
            (literal_eval : string -> result value) (repr : value -> string)
            (state : GraphState),
        exists state',
          outcome (validate_customer_node llm_invoke db_run literal_eval repr state)
          = Ret state'
          /\ (status state' = validated \/ status state' = not_found)).
Proof.
  intros Hall.
  destruct (Hall llm_clause (db_count "3") Literal.fragment_only repr_by_type empty_state)
    as (state' & Hret & _).
  discriminate Hret.
Qed.

Lemma validate_customer_node_status_witness :
  (exists state',
      outcome (validate_customer_node llm_clause (db_count "0") Literal.fragment_only
                 repr_by_type sample_state) = Ret state'
      /\ (status state' = validated \/ status state' = not_found))
  /\ status {| messages := [sample_message; assistant (VStr lookup_apology)];
               status := not_found;
               user_query := VStr "My name is Asha Rao" |} <> resolved.
Proof.
  split.
  - apply (proj1 (validate_customer_node_status llm_clause (db_count "0")
                    Literal.fragment_only repr_by_type sample_state)
             [] sample_message "name = 'Asha Rao'"); reflexivity.
  - apply (proj2 (validate_customer_node_status llm_clause (db_count "0")
                    Literal.fragment_only repr_by_type sample_state)).
    vm_compute. reflexivity.
Defined.

(** ** The Resolution Step *)

Lemma getitem0_truthy (v x : value) : getitem0 v = Ret x -> truthy v = true.
Proof.
  destruct v as [| | | | | |s|s|l|l|l|l]; simpl; try discriminate.
  - now destruct s.
  - now destruct s.
  - now destruct l.
  - now destruct l.
  - destruct l as [|[k w] l]; [discriminate | reflexivity].
Qed.

Lemma unpack3_arity (items : list value) :
  length items <> 3%nat -> exists e, unpack3 items = Raise e.
Proof.
  destruct items as [|a [|b [|c [|d items]]]]; simpl; intros Hlen; eauto.
  now contradiction Hlen.
Qed.

Section Resolution.

Variable sql_chain_invoke : string -> result (gmap string value).
Variable literal_eval : string -> result value.
Variable repr : value -> string.

Local Abbreviation resolve := (resolve_issue_node sql_chain_invoke literal_eval repr).
Local Abbreviation final_response := (final_response_of literal_eval repr).

(** Composing the reply calls no collaborator and cannot fail. *)
Lemma final_response_of_total (raw_content : value) :
  exists reply, final_response raw_content = ([], Ret reply).
Proof.
  unfold final_response_of.
  destruct raw_content as [| | | | | |raw| | | | |]; try (eexists; reflexivity).
  destruct (Str.startswith _ _); [|eexists; reflexivity].
  unfold try_except, bind, lift, ret. simpl.
  destruct (literal_eval raw) as [parsed|e]; simpl; [|eauto].
  destruct (truthy parsed); [|eauto].
  destruct (getitem0 parsed) as [first|e]; simpl; [|eauto].
  destruct first; simpl; eauto.
  destruct (unpack3 items) as [[[address issue] datetime_obj]|e]; simpl; eauto.
Qed.

(** The fallback: the raw text behind the prefix. *)
Lemma final_response_of_fallback (raw : string) :
  Str.startswith "[" (Str.strip raw) = true ->
  (exists e, literal_eval raw = Raise e)
  \/ (exists parsed, literal_eval raw = Ret parsed /\ truthy parsed = false)
  \/ (exists parsed e, literal_eval raw = Ret parsed /\ getitem0 parsed = Raise e)
  \/ (exists parsed first, literal_eval raw = Ret parsed
        /\ getitem0 parsed = Ret first
        /\ forall items, first = VTuple items -> length items <> 3%nat) ->
  final_response (VStr raw) = ([], Ret (VStr ("Final Answer: " +:+ raw))).
Proof.
  intros Hopen Hcase. unfold final_response_of. rewrite Hopen.
  unfold try_except, bind, lift, ret.
  destruct Hcase as [[e He]|[(parsed & Hp & Hfalse)|[(parsed & e & Hp & He)
                    |(parsed & first & Hp & Hfirst & Hshape)]]].
  - now rewrite He.
  - rewrite Hp. simpl. now rewrite Hfalse.
  - rewrite Hp. simpl. destruct (truthy parsed); [|reflexivity]. now rewrite He.
  - rewrite Hp. simpl. rewrite (getitem0_truthy _ _ Hfirst), Hfirst. simpl.
    destruct first; try reflexivity.
    destruct (unpack3_arity items (Hshape _ eq_refl)) as [e He]. now rewrite He.
Qed.

(** The state the step returns once the chain has answered. *)
Lemma resolve_issue_node_reply (state : GraphState) stripped result reply :
  method_strip (user_query state) = Ret stripped ->
  sql_chain_invoke (full_prompt_of repr stripped) = Ret result ->
  final_response (default (VStr EmptyString) (result !! "result")) = ([], Ret reply) ->
  resolve state
  = ([ChainInvoke (full_prompt_of repr stripped)],
     Ret {| messages := messages state ++ [assistant reply];
            status := resolved;
            user_query := user_query state |}).
Proof.
  intros Hstrip Hchain Hreply.
  unfold resolve_issue_node, try_except, bind, lift, ret, call_chain.
  rewrite Hstrip, Hchain, Hreply. reflexivity.
Qed.

(** The step returns on every path. *)
Lemma resolve_issue_node_total (state : GraphState) :
  exists reply,
    outcome (resolve state)
    = Ret {| messages := messages state ++ [assistant reply];
             status := resolved;
             user_query := user_query state |}.
Proof.
  unfold resolve_issue_node, try_except, bind, lift, ret, call_chain, outcome.
  destruct (method_strip (user_query state)) as [stripped|e]; simpl; [|eauto].
  destruct (sql_chain_invoke _) as [result|e]; simpl; [|eauto].
  destruct (final_response_of_total (default (VStr EmptyString) (result !! "result")))
    as [reply Hreply].
  rewrite Hreply. simpl. eauto.
Qed.

(** C2: for every input state and every behaviour of the chain and of the
    parser, the Resolution Step returns a state and does not raise; the
    status of that state is [resolved], and its messages are those of the
    input followed by one assistant message. *)
Theorem resolve_issue_node_resolved (state : GraphState) :
  exists state' reply,
    outcome (resolve state) = Ret state'
    /\ status state' = resolved
    /\ messages state' = messages state ++ [assistant reply]
    /\ length (messages state') = S (length (messages state))
    /\ user_query state' = user_query state.
Proof.
  destruct (resolve_issue_node_total state) as [reply Hreply].
  eexists _, reply. split; [exact Hreply|]. simpl.
  repeat split. rewrite length_app. simpl. lia.
Qed.

(** C8: the chain answer
    "[('123 Main St', 'No Signal', '2024-01-02 10:00:00')]" yields the
    sentence with issue, address and restoration time behind the prefix
    "Final Answer: "; an answer opening with a bracket that does not parse,
    or whose first tuple has another number of components than three,
    yields the raw text behind that prefix. *)
Theorem resolve_issue_node_serialized_rows (state : GraphState) stripped result raw :
  method_strip (user_query state) = Ret stripped ->
  sql_chain_invoke (full_prompt_of repr stripped) = Ret result ->
  result !! "result" = Some (VStr raw) ->
  (raw = "[('123 Main St', 'No Signal', '2024-01-02 10:00:00')]" ->
   Literal.extends literal_eval ->
   outcome (resolve state)
   = Ret {| messages := messages state
              ++ [assistant (VStr "Final Answer: There is a 'No Signal' issue reported at your address (123 Main St). It is expected to be resolved by 2024-01-02 10:00:00.")];
            status := resolved;
            user_query := user_query state |})
  /\ (Str.startswith "[" (Str.strip raw) = true ->
      (exists e, literal_eval raw = Raise e)
      \/ (exists parsed items, literal_eval raw = Ret parsed
            /\ getitem0 parsed = Ret (VTuple items)
            /\ length items <> 3%nat) ->
      outcome (resolve state)
      = Ret {| messages := messages state
                 ++ [assistant (VStr ("Final Answer: " +:+ raw))];
               status := resolved;
               user_query := user_query state |}).
Proof.
  intros Hstrip Hchain Hresult. split.
  - intros -> Hext.
    rewrite (resolve_issue_node_reply state stripped result
               (VStr "Final Answer: There is a 'No Signal' issue reported at your address (123 Main St). It is expected to be resolved by 2024-01-02 10:00:00.")
               Hstrip Hchain); [reflexivity|].
    rewrite Hresult. simpl.
    unfold try_except, bind, lift, ret.
    rewrite (Hext _ (VList [VTuple [VStr "123 Main St"; VStr "No Signal";
                                    VStr "2024-01-02 10:00:00"]]))
      by (vm_compute; reflexivity).
    reflexivity.
  - intros Hopen Hcase.
    rewrite (resolve_issue_node_reply state stripped result
               (VStr ("Final Answer: " +:+ raw)) Hstrip Hchain); [reflexivity|].
    rewrite Hresult. simpl. apply final_response_of_fallback; [exact Hopen|].
    destruct Hcase as [He|(parsed & items & Hp & Hfirst & Hlen)]; [now left|].
    do 3 right. exists parsed, (VTuple items). repeat split; try assumption.
    now intros items' [= <-].
Qed.

(** C9: a chain answer that is text and, leading white space aside, does
    not open with a bracket is appended as it is. *)
Theorem resolve_issue_node_plain_text (state : GraphState) stripped result raw :
  method_strip (user_query state) = Ret stripped ->
  sql_chain_invoke (full_prompt_of repr stripped) = Ret result ->
  result !! "result" = Some (VStr raw) ->
  Str.startswith "[" (Str.lstrip raw) = false ->
  resolve state
  = ([ChainInvoke (full_prompt_of repr stripped)],
     Ret {| messages := messages state ++ [assistant (VStr raw)];
            status := resolved;
            user_query := user_query state |}).
Proof.
  intros Hstrip Hchain Hresult Hplain.
  apply (resolve_issue_node_reply state stripped result (VStr raw) Hstrip Hchain).
  rewrite Hresult. simpl. unfold final_response_of.
  now rewrite startswith_strip, Hplain.
Qed.

End Resolution.

(** ** The count query *)

Lemma count_from_separator (cur a : string) (sep : ascii) (b : string) :
  Tokens.is_word_char sep = false ->
  Tokens.count_from cur (a +:+ String sep b)
  = (Tokens.count_from cur a + Tokens.count_from EmptyString b)%nat.
Proof.
  intros Hsep. revert cur. induction a as [|c a IH]; intros cur; simpl.
  - now rewrite Hsep.
  - destruct (Tokens.is_word_char c); rewrite IH; lia.
Qed.

(** C5, as the code has it.  A clause whose trimmed text begins with a
    WHERE token is taken over as it is: the query is the count prefix
    followed by the clause, and it has the WHERE tokens of the clause,
    exactly one when the clause has no other.  A clause whose trimmed text
    does not begin with the letters of the keyword gets [WHERE] and a space
    in front: the query has one WHERE token more than the clause, exactly
    one when the clause has none. *)
Theorem count_query_where_tokens (where_clause : string) :
  (Tokens.starts_with_where_token where_clause = true ->
   count_query where_clause = "SELECT COUNT(*) FROM customer_info " +:+ where_clause
   /\ Tokens.count_where (count_query where_clause) = Tokens.count_where where_clause
   /\ (Tokens.count_where where_clause = 1%nat ->
       Tokens.count_where (count_query where_clause) = 1%nat))
  /\ (Str.startswith "where" (Str.lower (Str.strip where_clause)) = false ->
      count_query where_clause
      = "SELECT COUNT(*) FROM customer_info WHERE " +:+ where_clause
      /\ Tokens.count_where (count_query where_clause)
         = S (Tokens.count_where where_clause)
      /\ (Tokens.count_where where_clause = 0%nat ->
          Tokens.count_where (count_query where_clause) = 1%nat)).
Proof.
  split.
  - unfold Tokens.starts_with_where_token. intros Htoken.
    apply andb_prop in Htoken as [Hletters _].
    assert (Hquery : count_query where_clause
                     = "SELECT COUNT(*) FROM customer_info " +:+ where_clause).
    { unfold count_query. now rewrite Hletters. }
    assert (Hcount : Tokens.count_where (count_query where_clause)
                     = Tokens.count_where where_clause).
    { rewrite Hquery. unfold Tokens.count_where.
      change ("SELECT COUNT(*) FROM customer_info " +:+ where_clause)
        with ("SELECT COUNT(*) FROM customer_info" +:+ String " " where_clause).
      now rewrite count_from_separator. }
    repeat split; [exact Hquery | exact Hcount | now rewrite Hcount].
  - intros Hletters.
    assert (Hquery : count_query where_clause
                     = "SELECT COUNT(*) FROM customer_info WHERE " +:+ where_clause).
    { unfold count_query. now rewrite Hletters. }
    assert (Hcount : Tokens.count_where (count_query where_clause)
                     = S (Tokens.count_where where_clause)).
    { rewrite Hquery. unfold Tokens.count_where.
      change ("SELECT COUNT(*) FROM customer_info WHERE " +:+ where_clause)
        with ("SELECT COUNT(*) FROM customer_info"
              +:+ String " " ("WHERE" +:+ String " " where_clause)).
      now rewrite !count_from_separator. }
    repeat split; [exact Hquery | exact Hcount | now rewrite Hcount; intros ->].
Qed.

Lemma count_query_where_tokens_witness :
  (count_query "WHERE name = 'Asha Rao'"
   = "SELECT COUNT(*) FROM customer_info WHERE name = 'Asha Rao'"
   /\ Tokens.count_where (count_query "WHERE name = 'Asha Rao'") = 1%nat)
  /\ (count_query "name = 'Asha Rao'"
      = "SELECT COUNT(*) FROM customer_info WHERE name = 'Asha Rao'"
      /\ Tokens.count_where (count_query "name = 'Asha Rao'") = 1%nat).
Proof.
  split.
  - destruct (proj1 (count_query_where_tokens "WHERE name = 'Asha Rao'")
                ltac:(vm_compute; reflexivity)) as (Hquery & _ & Hone).
    split; [exact Hquery | apply Hone; vm_compute; reflexivity].
  - destruct (proj2 (count_query_where_tokens "name = 'Asha Rao'")
                ltac:(vm_compute; reflexivity)) as (Hquery & _ & Hone).
    split; [exact Hquery | apply Hone; vm_compute; reflexivity].
Defined.

(** C5 as stated fails: a clause with a subquery is taken over as it is,
    and the count query has two WHERE tokens. *)
Lemma count_query_not_always_one_where :
  ~ (forall where_clause,
       Str.upper (Str.strip where_clause) <> "NONE" ->
       Tokens.count_where (count_query where_clause) = 1%nat).
Proof.
  intros Hall.
  specialize (Hall "WHERE address IN (SELECT address FROM issue_reports WHERE issue = 'No Signal')").
  vm_compute in Hall. now specialize (Hall ltac:(discriminate)).
Qed.

(** The test of line 71 looks at letters, not at tokens: a clause that
    begins with the letters of the keyword without being one gets no
    keyword. *)
Example count_query_no_where :
  count_query "whereabouts = 'Pune'"
  = "SELECT COUNT(*) FROM customer_info whereabouts = 'Pune'"
  /\ Tokens.count_where (count_query "whereabouts = 'Pune'") = 0%nat.
Proof. split; reflexivity. Qed.

(** ** The flow *)

Section Flow.

Variable llm_invoke : string -> result string.
Variable db_run : string -> result string.
Variable sql_chain_invoke : string -> result (gmap string value).
Variable literal_eval : string -> result value.
Variable repr : value -> string.

Local Abbreviation validate := (validate_customer_node llm_invoke db_run literal_eval repr).
Local Abbreviation resolve := (resolve_issue_node sql_chain_invoke literal_eval repr).
Local Abbreviation invoke :=
  (graph_invoke llm_invoke db_run sql_chain_invoke literal_eval repr).

Lemma run_from_END (fuel : nat) (state : GraphState) :
  run_from llm_invoke db_run sql_chain_invoke literal_eval repr fuel END state
  = ret (Some (state, [])).
Proof. now destruct fuel. Qed.

(** C4: one run of the graph from a state with status [started], with
    room for two node executions.  If validation raises, so does the run.
    If validation returns [not_found], the run ends there with that state
    and the calls of validation only, and the status went
    started, not_found.  If it returns [validated], the Resolution Step
    runs on that state, its result is the result of the run, and the
    status went started, validated, resolved.  There is no other case. *)
Theorem graph_invoke_transitions (fuel : nat) (state : GraphState) :
  status state = started ->
  (2 <= fuel)%nat ->
  match validate state with
  | (t, Raise e) => invoke fuel state = (t, Raise e)
  | (t, Ret state1) =>
      (status state1 = not_found
       /\ invoke fuel state = (t, Ret (Some (state1, [(ValidateCustomer, not_found)])))
       /\ status_history state [(ValidateCustomer, not_found)] = [started; not_found])
      \/ (status state1 = validated
          /\ exists t' state2,
              resolve state1 = (t', Ret state2)
              /\ invoke fuel state
                 = (t ++ t', Ret (Some (state2, [(ValidateCustomer, validated);
                                                 (ResolveIssue, resolved)])))
              /\ status_history state [(ValidateCustomer, validated);
                                       (ResolveIssue, resolved)]
                 = [started; validated; resolved])
  end.
Proof.
  intros Hstart Hfuel.
  destruct fuel as [|[|fuel]]; [lia | lia |].
  unfold graph_invoke, entry_point, status_history. rewrite Hstart.
  cbn [run_from run_node next_node].
  pose proof (validate_customer_node_returned_status
                llm_invoke db_run literal_eval repr state) as Hstatus.
  destruct (validate state) as [t [state1|e]]; [|reflexivity].
  destruct (Hstatus state1 eq_refl) as [Hvalidated|Hnot_found].
  - right. split; [exact Hvalidated|].
    destruct (resolve_issue_node_total sql_chain_invoke literal_eval repr state1)
      as [reply Hreply].
    destruct (resolve state1) as [t' [state2|e]] eqn:Hresolve;
      simpl in Hreply; [|discriminate].
    exists t', state2. split; [reflexivity|]. split; [|reflexivity].
    unfold bind at 1. unfold lift, next_node. rewrite Hvalidated.
    cbn [conditional_edges bind run_from run_node]. rewrite Hresolve.
    injection Hreply as ->. cbn. rewrite run_from_END. cbn. now rewrite !app_nil_r.
  - left. split; [exact Hnot_found|]. split; [|reflexivity].
    unfold bind at 1. unfold lift, next_node. rewrite Hnot_found.
    cbn. now rewrite !app_nil_r.
Qed.

End Flow.

(** ** The theorems at sample inputs *)

(** The marker is recognised in any letter case and inside white space,
    the white space outside ASCII included. *)
Example none_marker_any_case :
  Str.upper (Str.strip ("  NoNe " +:+ nl)) = "NONE"
  /\ Str.upper (Str.strip (nbsp +:+ "none" +:+ ideographic_space)) = "NONE"
  /\ Str.upper (Str.strip "NONE") = "NONE".
Proof. repeat split. Qed.

(** An answer of the chain that opens with a bracket behind a no-break
    space is a bracketed answer: it gets the prefix. *)
Example resolve_issue_node_bracket_after_nbsp :
  outcome (resolve_issue_node (chain_returns (VStr (nbsp +:+ "[outage] fixed by 6 pm")))
             Literal.fragment_only repr_by_type validated_state)
  = Ret {| messages :=
             [sample_message;
              assistant (VStr ("Final Answer: " +:+ nbsp +:+ "[outage] fixed by 6 pm"))];
           status := resolved;
           user_query := VStr "My name is Asha Rao" |}.
Proof. vm_compute. reflexivity. Qed.

(** A turn without identity details: one model call, no store query, no
    chain call, and the apology as the only assistant message. *)
Example graph_invoke_without_details :
  graph_invoke llm_none db_down (chain_returns (VStr rows_text))
    Literal.fragment_only repr_by_type 25 (user_turn "hello")
  = ([LlmInvoke (WHERE_PROMPT "hello")],
     Ret (Some ({| messages := [Message "user" (VStr "hello");
                                assistant (VStr extraction_apology)];
                   status := not_found;
                   user_query := VStr "hello" |},
                [(ValidateCustomer, not_found)]))).
Proof. vm_compute. reflexivity. Qed.

(** A turn of a known customer with a reported issue. *)
Example graph_invoke_known_customer :
  outcome (graph_invoke llm_clause (db_count "3") (chain_returns (VStr rows_text))
             Literal.fragment_only repr_by_type 25 sample_state)
  = Ret (Some ({| messages :=
                    [sample_message;
                     assistant (VStr "Final Answer: There is a 'No Signal' issue reported at your address (123 Main St). It is expected to be resolved by 2024-01-02 10:00:00.")];
                  status := resolved;
                  user_query := VStr "My name is Asha Rao" |},
               [(ValidateCustomer, validated); (ResolveIssue, resolved)])).
Proof. vm_compute. reflexivity. Qed.

(** A store that is down during validation ends the turn with the error
    text in the reply. *)
Example validate_customer_node_store_down :
  outcome (validate_customer_node llm_clause db_down Literal.fragment_only
             repr_by_type sample_state)
  = Ret {| messages :=
             [sample_message;
              assistant (VStr (validation_error_prefix
                               +:+ "server closed the connection"))];
           status := not_found;
           user_query := VStr "My name is Asha Rao" |}.
Proof. vm_compute. reflexivity. Qed.

Lemma validate_customer_node_reads_last_message_witness :
  validate_customer_node llm_clause (db_count "3") Literal.fragment_only repr_by_type
    empty_state
  = raise (IndexError "list index out of range")
  /\ user_query validated_state = VStr "My name is Asha Rao".
Proof.
  split.
  - apply (proj1 (validate_customer_node_reads_last_message
                    llm_clause (db_count "3") Literal.fragment_only repr_by_type
                    empty_state)).
    reflexivity.
  - apply (proj2 (proj2 (validate_customer_node_reads_last_message
                           llm_clause (db_count "3") Literal.fragment_only repr_by_type
                           sample_state)
                    [] sample_message eq_refl) validated_state).
    vm_compute. reflexivity.
Defined.

Lemma validate_customer_node_none_witness :
  validate_customer_node llm_none db_down Literal.fragment_only repr_by_type sample_state
  = ([LlmInvoke (WHERE_PROMPT "My name is Asha Rao")],
     Ret {| messages := [sample_message; assistant (VStr extraction_apology)];
            status := not_found;
            user_query := VStr "My name is Asha Rao" |}).
Proof.
  apply (validate_customer_node_none llm_none db_down Literal.fragment_only repr_by_type
           sample_state [] sample_message (nbsp +:+ " none" +:+ nl)).
  - reflexivity.
  - reflexivity.
  - vm_compute. reflexivity.
Defined.

Lemma validate_customer_node_count_result_witness :
  outcome (validate_customer_node llm_clause (db_count "0") Literal.fragment_only
             repr_by_type sample_state)
  = Ret {| messages := [sample_message; assistant (VStr lookup_apology)];
           status := not_found;
           user_query := VStr "My name is Asha Rao" |}
  /\ outcome (validate_customer_node llm_clause (db_count "3") Literal.fragment_only
                repr_by_type sample_state)
     = Ret validated_state.
Proof.
  assert (Hclause : Str.upper (Str.strip "name = 'Asha Rao'") <> "NONE")
    by (vm_compute; discriminate).
  split.
  - apply (proj1 (validate_customer_node_count_result
                    llm_clause (db_count "0") Literal.fragment_only repr_by_type
                    sample_state [] sample_message "name = 'Asha Rao'"
                    eq_refl eq_refl Hclause fragment_only_extends)).
    reflexivity.
  - apply (proj1 (proj2 (validate_customer_node_count_result
                           llm_clause (db_count "3") Literal.fragment_only repr_by_type
                           sample_state [] sample_message "name = 'Asha Rao'"
                           eq_refl eq_refl Hclause fragment_only_extends))).
    reflexivity.
Defined.

Lemma resolve_issue_node_serialized_rows_witness :
  outcome (resolve_issue_node (chain_returns (VStr rows_text)) Literal.fragment_only
             repr_by_type validated_state)
  = Ret {| messages :=
             [sample_message;
              assistant (VStr "Final Answer: There is a 'No Signal' issue reported at your address (123 Main St). It is expected to be resolved by 2024-01-02 10:00:00.")];
           status := resolved;
           user_query := VStr "My name is Asha Rao" |}
  /\ outcome (resolve_issue_node (chain_returns (VStr "[('123 Main St', 'No Signal')]"))
                Literal.fragment_only repr_by_type validated_state)
     = Ret {| messages :=
                [sample_message;
                 assistant (VStr "Final Answer: [('123 Main St', 'No Signal')]")];
              status := resolved;
              user_query := VStr "My name is Asha Rao" |}.
Proof.
  split.
  - apply (proj1 (resolve_issue_node_serialized_rows
                    (chain_returns (VStr rows_text)) Literal.fragment_only repr_by_type
                    validated_state (VStr "My name is Asha Rao")
                    {[ "result" := VStr rows_text ]} rows_text
                    eq_refl eq_refl (lookup_singleton_eq _ _))).
    + reflexivity.
    + exact fragment_only_extends.
  - apply (proj2 (resolve_issue_node_serialized_rows
                    (chain_returns (VStr "[('123 Main St', 'No Signal')]"))
                    Literal.fragment_only repr_by_type
                    validated_state (VStr "My name is Asha Rao")
                    {[ "result" := VStr "[('123 Main St', 'No Signal')]" ]}
                    "[('123 Main St', 'No Signal')]"
                    eq_refl eq_refl (lookup_singleton_eq _ _))).
    + vm_compute. reflexivity.
    + right. exists (VList [VTuple [VStr "123 Main St"; VStr "No Signal"]]),
        [VStr "123 Main St"; VStr "No Signal"].
      split; [vm_compute; reflexivity | split; [reflexivity | simpl; lia]].
Defined.

Lemma resolve_issue_node_plain_text_witness :
  resolve_issue_node (chain_returns (VStr "Final Answer: The signal is back by 6 pm."))
    Literal.fragment_only repr_by_type validated_state
  = ([ChainInvoke (full_prompt_of repr_by_type (VStr "My name is Asha Rao"))],
     Ret {| messages :=
              [sample_message;
               assistant (VStr "Final Answer: The signal is back by 6 pm.")];
            status := resolved;
            user_query := VStr "My name is Asha Rao" |}).
Proof.
  apply (resolve_issue_node_plain_text
           (chain_returns (VStr "Final Answer: The signal is back by 6 pm."))
           Literal.fragment_only repr_by_type
           validated_state (VStr "My name is Asha Rao")
           {[ "result" := VStr "Final Answer: The signal is back by 6 pm." ]}
           "Final Answer: The signal is back by 6 pm.").
  - reflexivity.
  - reflexivity.
  - apply lookup_singleton_eq.
  - vm_compute. reflexivity.
Defined.

Lemma graph_invoke_transitions_witness :
  exists t state2,
    graph_invoke llm_clause (db_count "3") (chain_returns (VStr rows_text))
      Literal.fragment_only repr_by_type 25 sample_state
    = (t, Ret (Some (state2, [(ValidateCustomer, validated); (ResolveIssue, resolved)])))
    /\ status state2 = resolved.
Proof.
  pose proof (graph_invoke_transitions
                llm_clause (db_count "3") (chain_returns (VStr rows_text))
                Literal.fragment_only repr_by_type 25 sample_state
                eq_refl ltac:(lia)) as Hrun.
  assert (Hvalidate :
            validate_customer_node llm_clause (db_count "3") Literal.fragment_only
              repr_by_type sample_state
            = ([LlmInvoke (WHERE_PROMPT "My name is Asha Rao");
                DbRun (count_query "name = 'Asha Rao'")], Ret validated_state))
    by (vm_compute; reflexivity).
  rewrite Hvalidate in Hrun.
  destruct Hrun as [(Hstatus & _)|(_ & t' & state2 & Hresolve & Hrun & _)];
    [discriminate|].
  eexists _, state2. split; [exact Hrun|].
  vm_compute in Hresolve. now injection Hresolve as _ <-.
Defined.

(** * Further properties of the code *)

(** ** More on the Validation Step *)

Section ValidationEdges.

Variable llm_invoke : string -> result string.
Variable db_run : string -> result string.
Variable literal_eval : string -> result value.
Variable repr : value -> string.

Local Abbreviation validate := (validate_customer_node llm_invoke db_run literal_eval repr).
Local Abbreviation where_prompt_for m := (WHERE_PROMPT (format_value repr (content m))).

(** X1: a state returned by the Validation Step is either [validated]
    with the messages of the input, or [not_found] with the messages of the
    input followed by one assistant message that is a text. *)
Theorem validate_customer_node_reply_shape (state state' : GraphState) :
  outcome (validate state) = Ret state' ->
  (status state' = validated /\ messages state' = messages state)
  \/ (status state' = not_found
      /\ exists text, messages state' = messages state ++ [assistant (VStr text)]).
Proof.
  run_node_body.
  destruct (getitem_last (messages state)) as [m|e]; simpl; [|discriminate].
  repeat case_outcome; intros [= <-]; simpl; eauto.
Qed.

(** X2: the calls of the Validation Step.  With no message it calls
    nothing.  Otherwise it calls the model once; it then queries the store,
    once and with the count query of the trimmed answer, exactly when the
    model answered and the answer is not the marker NONE. *)
Theorem validate_customer_node_call_sequence (state : GraphState) :
  (messages state = [] /\ calls (validate state) = [])
  \/ exists ms m,
      messages state = ms ++ [m]
      /\ ((calls (validate state) = [LlmInvoke (where_prompt_for m)]
           /\ forall response,
               llm_invoke (where_prompt_for m) = Ret response ->
               Str.upper (Str.strip response) = "NONE")
          \/ exists response,
              llm_invoke (where_prompt_for m) = Ret response
              /\ Str.upper (Str.strip response) <> "NONE"
              /\ calls (validate state)
                 = [LlmInvoke (where_prompt_for m);
                    DbRun (count_query (Str.strip response))]).
Proof.
  destruct (messages state) as [|m ms _] eqn:Hms using rev_ind.
  - left. split; [reflexivity|]. unfold calls. run_node_body. now rewrite Hms.
  - right. exists ms, m. split; [reflexivity|].
    unfold calls. run_node_body. rewrite Hms, getitem_last_snoc. simpl.
    destruct (llm_invoke (where_prompt_for m)) as [response|e]; simpl.
    + destruct (String.eqb (Str.upper (Str.strip response)) "NONE") eqn:Hnone; simpl.
      * left. split; [reflexivity|]. intros r [= <-]. now apply String.eqb_eq.
      * right. exists response. split; [reflexivity|].
        split; [now apply String.eqb_neq|].
        repeat case_outcome; reflexivity.
    + left. split; [reflexivity|]. intros r Hr. discriminate.
Qed.

(** X3: whatever the model answers, the statement sent to the store is
    the fixed count prefix followed by a text that begins with the letters
    of the keyword WHERE in some letter case. *)
Theorem count_query_normal_form (where_response : string) :
  exists tail,
    count_query (Str.strip where_response)
    = "SELECT COUNT(*) FROM customer_info " +:+ tail
    /\ Str.startswith "where" (Str.lower tail) = true.
Proof.
  unfold count_query. rewrite strip_idempotent.
  destruct (Str.startswith "where" (Str.lower (Str.strip where_response))) eqn:Hstart.
  - exists (Str.strip where_response). split; [reflexivity | exact Hstart].
  - exists ("WHERE " +:+ Str.strip where_response). split; reflexivity.
Qed.

(** X4: every failure after the model call is turned into a reply: when
    the store, the parser, one of the two subscripts or the comparison
    raises [e], the step returns [not_found] with the validation error
    text followed by the text of [e]. *)
Theorem validate_customer_node_reports_failure (state : GraphState) ms m response e :
  messages state = ms ++ [m] ->
  llm_invoke (where_prompt_for m) = Ret response ->
  Str.upper (Str.strip response) <> "NONE" ->
  (db_run (count_query (Str.strip response)) = Raise e
   \/ exists raw,
       db_run (count_query (Str.strip response)) = Ret raw
       /\ (literal_eval raw = Raise e
           \/ exists parsed,
               literal_eval raw = Ret parsed
               /\ (getitem0 parsed = Raise e
                   \/ exists row,
                       getitem0 parsed = Ret row
                       /\ (getitem0 row = Raise e
                           \/ exists count,
                               getitem0 row = Ret count
                               /\ gt_zero count = Raise e)))) ->
  outcome (validate state)
  = Ret {| messages := messages state
             ++ [assistant (VStr (validation_error_prefix +:+ exn_text e))];
           status := not_found;
           user_query := content m |}.
Proof.
  intros Hms Hllm Hnone Hfail. run_node_body.
  rewrite Hms, getitem_last_snoc. simpl. rewrite Hllm. simpl.
  rewrite (proj2 (String.eqb_neq _ _) Hnone).
  destruct Hfail as [Hdb|(raw & Hdb & Hfail)]; rewrite Hdb; simpl; [reflexivity|].
  destruct Hfail as [Hp|(parsed & Hp & Hfail)]; rewrite Hp; simpl; [reflexivity|].
  destruct Hfail as [Hr|(row & Hr & Hfail)]; rewrite Hr; simpl; [reflexivity|].
  destruct Hfail as [Hc|(count & Hc & Hgt)]; rewrite Hc; simpl; [reflexivity|].
  now rewrite Hgt.
Qed.

(** X5: a count that is an integer not above zero, negative ones
    included, gives [not_found] with the lookup apology. *)
Theorem validate_customer_node_no_match (state : GraphState) ms m response
    raw parsed row n :
  messages state = ms ++ [m] ->
  llm_invoke (where_prompt_for m) = Ret response ->
  Str.upper (Str.strip response) <> "NONE" ->
  db_run (count_query (Str.strip response)) = Ret raw ->
  literal_eval raw = Ret parsed ->
  getitem0 parsed = Ret row ->
  getitem0 row = Ret (VInt n) ->
  n <= 0 ->
  outcome (validate state)
  = Ret {| messages := messages state ++ [assistant (VStr lookup_apology)];
           status := not_found;
           user_query := content m |}.
Proof.
  intros Hms Hllm Hnone Hdb Hparse Hrow Hcount Hn.
  assert (Hpos : gt_zero (VInt n) = Ret false).
  { simpl. f_equal. now apply Z.ltb_ge. }
  now rewrite (validate_customer_node_count llm_invoke db_run literal_eval repr
                 state ms m response _ _ _ _ false
                 Hms Hllm Hnone Hdb Hparse Hrow Hcount Hpos).
Qed.

End ValidationEdges.

(** ** More on the Resolution Step *)

Section ResolutionEdges.

Variable sql_chain_invoke : string -> result (gmap string value).
Variable literal_eval : string -> result value.
Variable repr : value -> string.

Local Abbreviation resolve := (resolve_issue_node sql_chain_invoke literal_eval repr).
Local Abbreviation final_response := (final_response_of literal_eval repr).

(** The calls of the step: none, or one call of the chain. *)
Lemma resolve_issue_node_calls_cases (state : GraphState) :
  calls (resolve state) = []
  \/ exists prompt, calls (resolve state) = [ChainInvoke prompt].
Proof.
  unfold calls, resolve_issue_node, try_except, bind, lift, ret, call_chain.
  destruct (method_strip (user_query state)) as [stripped|e]; simpl; [|now left].
  right. exists (full_prompt_of repr stripped).
  destruct (sql_chain_invoke _) as [result|e]; simpl; [|reflexivity].
  destruct (final_response_of_total literal_eval repr
              (default (VStr EmptyString) (result !! "result"))) as [reply Hreply].
  now rewrite Hreply.
Qed.

(** X6: with a [user_query] that is neither text nor bytes, [None]
    included, the step does not call the chain; it returns [resolved] with
    the failure text that names the missing [strip] method. *)
Theorem resolve_issue_node_without_query (state : GraphState) :
  (forall s, user_query state <> VStr s) ->
  (forall s, user_query state <> VBytes s) ->
  resolve state
  = ([],
     Ret {| messages := messages state
              ++ [assistant (VStr (resolution_error_prefix +:+ "'"
                                   +:+ type_name (user_query state)
                                   +:+ "' object has no attribute 'strip'"))];
            status := resolved;
            user_query := user_query state |}).
Proof.
  intros Hstr Hbytes.
  unfold resolve_issue_node, try_except, bind, lift, ret.
  destruct (user_query state) as [| | | | | |s|s| | | |] eqn:Hq; try reflexivity.
  - now contradiction (Hstr s).
  - now contradiction (Hbytes s).
Qed.

(** X7: a failure of the chain is reported in the reply: the step
    returns [resolved] with the failure text followed by the text of the
    exception, after the one chain call. *)
Theorem resolve_issue_node_chain_failure (state : GraphState) stripped e :
  method_strip (user_query state) = Ret stripped ->
  sql_chain_invoke (full_prompt_of repr stripped) = Raise e ->
  resolve state
  = ([ChainInvoke (full_prompt_of repr stripped)],
     Ret {| messages := messages state
              ++ [assistant (VStr (resolution_error_prefix +:+ exn_text e))];
            status := resolved;
            user_query := user_query state |}).
Proof.
  intros Hstrip Hchain.
  unfold resolve_issue_node, try_except, bind, lift, ret, call_chain.
  now rewrite Hstrip, Hchain.
Qed.

(** X8: a chain result without the key "result" stands for the empty
    text: the appended assistant message is empty. *)
Theorem resolve_issue_node_missing_result (state : GraphState) stripped result :
  method_strip (user_query state) = Ret stripped ->
  sql_chain_invoke (full_prompt_of repr stripped) = Ret result ->
  result !! "result" = None ->
  outcome (resolve state)
  = Ret {| messages := messages state ++ [assistant (VStr EmptyString)];
           status := resolved;
           user_query := user_query state |}.
Proof.
  intros Hstrip Hchain Hresult.
  rewrite (resolve_issue_node_reply sql_chain_invoke literal_eval repr
             state stripped result (VStr EmptyString) Hstrip Hchain); [reflexivity|].
  now rewrite Hresult.
Qed.


(** X10: a bracketed answer that parses to something empty, or whose
    first element cannot be taken or is not a tuple, falls back to the raw
    text behind the prefix. *)
Theorem resolve_issue_node_no_row (state : GraphState) stripped result raw parsed :
  method_strip (user_query state) = Ret stripped ->
  sql_chain_invoke (full_prompt_of repr stripped) = Ret result ->
  result !! "result" = Some (VStr raw) ->
  Str.startswith "[" (Str.strip raw) = true ->
  literal_eval raw = Ret parsed ->
  truthy parsed = false
  \/ (exists e, getitem0 parsed = Raise e)
  \/ (exists first, getitem0 parsed = Ret first
                    /\ forall items, first <> VTuple items) ->
  outcome (resolve state)
  = Ret {| messages := messages state ++ [assistant (VStr ("Final Answer: " +:+ raw))];
           status := resolved;
           user_query := user_query state |}.
Proof.
  intros Hstrip Hchain Hresult Hopen Hparse Hcase.
  rewrite (resolve_issue_node_reply sql_chain_invoke literal_eval repr
             state stripped result (VStr ("Final Answer: " +:+ raw)) Hstrip Hchain);
    [reflexivity|].
  rewrite Hresult. simpl. apply final_response_of_fallback; [exact Hopen|].
  destruct Hcase as [Hfalse|[[e He]|(first & Hfirst & Hshape)]].
  - right. left. now exists parsed.
  - right. right. left. now exists parsed, e.
  - do 3 right. exists parsed, first. repeat split; try assumption.
    intros items ->. now contradiction (Hshape items).
Qed.

(** X11: a chain result that is not text is appended as it is, so the
    content of the assistant message is then not a text. *)
Theorem resolve_issue_node_non_text (state : GraphState) stripped result v :
  method_strip (user_query state) = Ret stripped ->
  sql_chain_invoke (full_prompt_of repr stripped) = Ret result ->
  result !! "result" = Some v ->
  (forall s, v <> VStr s) ->
  outcome (resolve state)
  = Ret {| messages := messages state ++ [assistant v];
           status := resolved;
           user_query := user_query state |}.
Proof.
  intros Hstrip Hchain Hresult Hv.
  rewrite (resolve_issue_node_reply sql_chain_invoke literal_eval repr
             state stripped result v Hstrip Hchain); [reflexivity|].
  rewrite Hresult. simpl. unfold final_response_of.
  destruct v; try reflexivity. now contradiction (Hv s).
Qed.

End ResolutionEdges.

(** ** More on the flow *)

Section FlowEdges.

Variable llm_invoke : string -> result string.
Variable db_run : string -> result string.
Variable sql_chain_invoke : string -> result (gmap string value).
Variable literal_eval : string -> result value.
Variable repr : value -> string.

Local Abbreviation validate := (validate_customer_node llm_invoke db_run literal_eval repr).
Local Abbreviation resolve := (resolve_issue_node sql_chain_invoke literal_eval repr).
Local Abbreviation invoke :=
  (graph_invoke llm_invoke db_run sql_chain_invoke literal_eval repr).
Local Abbreviation where_prompt_for m := (WHERE_PROMPT (format_value repr (content m))).

(** What a return of the Validation Step tells about the input, the calls
    and the returned state. *)
Lemma validate_customer_node_returned (state state' : GraphState) :
  outcome (validate state) = Ret state' ->
  exists ms m,
    messages state = ms ++ [m]
    /\ user_query state' = content m
    /\ ((status state' = validated
         /\ messages state' = messages state
         /\ exists p q, calls (validate state) = [LlmInvoke p; DbRun q])
        \/ (status state' = not_found
            /\ exists text, messages state' = messages state ++ [assistant (VStr text)])).
Proof.
  destruct (messages state) as [|m ms _] eqn:Hms using rev_ind.
  - run_node_body. rewrite Hms. discriminate.
  - intros Hret. exists ms, m. split; [reflexivity|].
    revert Hret. unfold calls. run_node_body. rewrite Hms, getitem_last_snoc. simpl.
    repeat case_outcome; intros [= <-]; simpl; split; eauto 8.
Qed.

(** The step raises exactly when there is no message to read or the model
    call raises. *)
Lemma validate_customer_node_raises (state : GraphState) (e : exn) :
  outcome (validate state) = Raise e
  <-> (messages state = [] /\ e = IndexError "list index out of range")
      \/ (exists ms m, messages state = ms ++ [m]
                       /\ llm_invoke (where_prompt_for m) = Raise e).
Proof.
  split.
  - destruct (messages state) as [|m ms _] eqn:Hms using rev_ind.
    + run_node_body. rewrite Hms. intros [= <-]. now left.
    + intros Hraise. right. exists ms, m. split; [reflexivity|].
      destruct (llm_invoke (where_prompt_for m)) as [response|e'] eqn:Hllm.
      * destruct (validate_customer_node_returns llm_invoke db_run literal_eval repr
                    state ms m response Hms Hllm) as [state' Hret].
        rewrite Hret in Hraise. discriminate.
      * rewrite (validate_customer_node_model_failure llm_invoke db_run literal_eval
                   repr state ms m e' Hms Hllm) in Hraise.
        simpl in Hraise. now injection Hraise as ->.
  - intros [[Hnil ->]|(ms & m & Hms & Hllm)].
    + run_node_body. now rewrite Hnil.
    + now rewrite (validate_customer_node_model_failure llm_invoke db_run literal_eval
                     repr state ms m e Hms Hllm).
Qed.

Lemma validate_customer_node_calls_cases (state : GraphState) :
  calls (validate state) = []
  \/ (exists p, calls (validate state) = [LlmInvoke p])
  \/ (exists p q, calls (validate state) = [LlmInvoke p; DbRun q]).
Proof.
  unfold calls. run_node_body.
  destruct (getitem_last (messages state)) as [m|e]; simpl; [|now left].
  right. repeat case_outcome; eauto.
Qed.

(** One run of the graph, node by node. *)
Lemma graph_invoke_by_node (fuel : nat) (state : GraphState) :
  (2 <= fuel)%nat ->
  invoke fuel state
  = match validate state with
    | (t, Raise e) => (t, Raise e)
    | (t, Ret state1) =>
        match status state1 with
        | not_found => (t, Ret (Some (state1, [(ValidateCustomer, not_found)])))
        | validated =>
            match resolve state1 with
            | (t', Ret state2) =>
                (t ++ t', Ret (Some (state2, [(ValidateCustomer, validated);
                                              (ResolveIssue, status state2)])))
            | (t', Raise e) => (t ++ t', Raise e)
            end
        | other => (t, Raise (KeyError ("'" +:+ status_name other +:+ "'")))
        end
    end.
Proof.
  intros Hfuel. destruct fuel as [|[|fuel]]; [lia | lia |].
  unfold graph_invoke, entry_point. cbn [run_from run_node].
  destruct (validate state) as [t [state1|e]]; [|reflexivity].
  unfold bind at 1. unfold lift, next_node.
  destruct (status state1) eqn:Hstatus; cbn; rewrite ?app_nil_r; try reflexivity.
  destruct (resolve state1) as [t' [state2|e]]; cbn; [|reflexivity].
  rewrite run_from_END. cbn. now rewrite !app_nil_r.
Qed.

(** X12: a run of the graph raises exactly when the Validation Step has
    no message to read, with [IndexError], or when the model call of the
    Validation Step raises, with that exception; no other failure leaves
    the graph. *)
Theorem graph_invoke_raises (fuel : nat) (state : GraphState) (e : exn) :
  (2 <= fuel)%nat ->
  outcome (invoke fuel state) = Raise e
  <-> (messages state = [] /\ e = IndexError "list index out of range")
      \/ (exists ms m, messages state = ms ++ [m]
                       /\ llm_invoke (where_prompt_for m) = Raise e).
Proof.
  intros Hfuel. rewrite <- validate_customer_node_raises.
  rewrite (graph_invoke_by_node fuel state Hfuel).
  pose proof (validate_customer_node_returned_status
                llm_invoke db_run literal_eval repr state) as Hstatus.
  destruct (validate state) as [t [state1|e']]; simpl;
    [|split; intros [= ->]; reflexivity].
  destruct (Hstatus state1 eq_refl) as [Hs|Hs]; rewrite Hs.
  - destruct (resolve_issue_node_total sql_chain_invoke literal_eval repr state1)
      as [reply Hreply].
    destruct (resolve state1) as [t' [state2|e2]]; simpl in *; [|discriminate].
    split; discriminate.
  - simpl. split; discriminate.
Qed.

(** The state a run returns. *)
Lemma graph_invoke_returned (fuel : nat) (state : GraphState) run :
  (2 <= fuel)%nat ->
  outcome (invoke fuel state) = Ret run ->
  exists final path reply ms m,
    run = Some (final, path)
    /\ (status final = not_found \/ status final = resolved)
    /\ messages state = ms ++ [m]
    /\ messages final = messages state ++ [assistant reply]
    /\ user_query final = content m.
Proof.
  intros Hfuel. rewrite (graph_invoke_by_node fuel state Hfuel).
  pose proof (validate_customer_node_returned state) as Hreturned.
  destruct (validate state) as [t [state1|e']]; simpl; [|discriminate].
  destruct (Hreturned state1 eq_refl)
    as (ms & m & Hms & Hquery & [(Hs & Hsame & _)|(Hs & text & Happ)]); rewrite Hs.
  - destruct (resolve_issue_node_total sql_chain_invoke literal_eval repr state1)
      as [reply Hreply].
    destruct (resolve state1) as [t' [state2|e2]]; simpl in *; [|discriminate].
    injection Hreply as ->. intros [= <-].
    eexists _, _, reply, ms, m. simpl. rewrite Hsame, Hquery. auto.
  - simpl. intros [= <-].
    eexists _, _, (VStr text), ms, m. rewrite Happ, Hquery, Hs. auto.
Qed.

(** X13: a run of the graph that returns ends in a state whose status is
    [not_found] or [resolved], whose messages are those of the input
    followed by exactly one assistant message, and whose [user_query] is
    the content of the last input message. *)
Theorem graph_invoke_returns (fuel : nat) (state : GraphState) run :
  (2 <= fuel)%nat ->
  outcome (invoke fuel state) = Ret run ->
  exists final path reply ms m,
    run = Some (final, path)
    /\ (status final = not_found \/ status final = resolved)
    /\ messages state = ms ++ [m]
    /\ messages final = messages state ++ [assistant reply]
    /\ user_query final = content m.
Proof. exact (graph_invoke_returned fuel state run). Qed.

(** X14: the calls of one run, in order: the model at most once, then the
    store at most once, then the chain at most once.  The chain is never
    called before the store has been queried, and the store never before
    the model. *)
Theorem graph_invoke_call_sequence (fuel : nat) (state : GraphState) :
  (2 <= fuel)%nat ->
  calls (invoke fuel state) = []
  \/ (exists p, calls (invoke fuel state) = [LlmInvoke p])
  \/ (exists p q, calls (invoke fuel state) = [LlmInvoke p; DbRun q])
  \/ (exists p q c, calls (invoke fuel state) = [LlmInvoke p; DbRun q; ChainInvoke c]).
Proof.
  intros Hfuel. rewrite (graph_invoke_by_node fuel state Hfuel).
  pose proof (validate_customer_node_returned state) as Hreturned.
  pose proof (validate_customer_node_calls_cases state) as Hcalls.
  destruct (validate state) as [t [state1|e']]; unfold calls in *; simpl in *.
  - destruct (Hreturned state1 eq_refl)
      as (ms & m & _ & _ & [(Hs & _ & p & q & Ht)|(Hs & _)]); rewrite Hs.
    + pose proof (resolve_issue_node_calls_cases sql_chain_invoke literal_eval repr
                    state1) as Hresolve.
      unfold calls in Hresolve.
      destruct (resolve state1) as [t' [state2|e2]]; simpl in *; subst t;
        destruct Hresolve as [->|[c ->]]; simpl; eauto 8.
    + simpl. destruct Hcalls as [->|[[p ->]|(p & q & ->)]]; eauto 8.
  - destruct Hcalls as [->|[[p ->]|(p & q & ->)]]; eauto 8.
Qed.

End FlowEdges.

(** ** The command loop *)

Section CommandLoopProperties.

Variable llm_invoke : string -> result string.
Variable db_run : string -> result string.
Variable sql_chain_invoke : string -> result (gmap string value).
Variable literal_eval : string -> result value.
Variable repr : value -> string.

Local Abbreviation invoke :=
  (graph_invoke llm_invoke db_run sql_chain_invoke literal_eval repr).
Local Abbreviation graph := (run_graph llm_invoke db_run sql_chain_invoke literal_eval repr).
Local Abbreviation turn := (cli_turn llm_invoke db_run sql_chain_invoke literal_eval repr).
Local Abbreviation loop := (cli_loop llm_invoke db_run sql_chain_invoke literal_eval repr).

Lemma run_graph_unfold (state : GraphState) :
  graph state
  = match invoke recursion_limit state with
    | (t, Ret (Some (final, _))) => (t, Ret final)
    | (t, Ret None) => (t, Raise (Exn "GraphRecursionError" "Recursion limit of 25 reached"))
    | (t, Raise e) => (t, Raise e)
    end.
Proof.
  unfold run_graph, bind, ret, raise.
  destruct (invoke recursion_limit state) as [t [[[final path]|]|e]];
    now rewrite ?app_nil_r.
Qed.

Lemma recursion_limit_enough : (2 <= recursion_limit)%nat.
Proof. unfold recursion_limit. lia. Qed.

(** The state behind a completed turn. *)
Lemma run_graph_returned (text : string) (final : GraphState) :
  outcome (graph (user_turn text)) = Ret final ->
  exists reply,
    messages final = [Message "user" (VStr text); assistant reply]
    /\ (status final = not_found \/ status final = resolved)
    /\ user_query final = VStr text.
Proof.
  rewrite run_graph_unfold.
  pose proof (graph_invoke_returned llm_invoke db_run sql_chain_invoke literal_eval repr
                recursion_limit (user_turn text)) as Hreturned.
  destruct (invoke recursion_limit (user_turn text)) as [t [run|e]]; simpl;
    [|discriminate].
  destruct (Hreturned run recursion_limit_enough eq_refl)
    as (final' & path & reply & ms & m & -> & Hstatus & Hms & Hmessages & Hquery).
  intros [= <-]. exists reply. simpl in Hms, Hmessages.
  assert (m = Message "user" (VStr text)) as ->.
  { change [Message "user" (VStr text)] with ([] ++ [Message "user" (VStr text)]) in Hms.
    now apply app_inj_tail in Hms as [_ <-]. }
  auto.
Qed.

(** X15: a line that is [exit] or [quit] in some letter case, white
    space around it aside, ends the loop at once: nothing is printed, no
    collaborator is called and the lines after it are not read. *)
Theorem cli_loop_exit (user_input : string) (rest : list string) :
  Str.lower (Str.strip user_input) = "exit" \/ Str.lower (Str.strip user_input) = "quit" ->
  loop (user_input :: rest) = Session [Prompt you_prompt] [] (Ret tt).
Proof.
  intros Hword. simpl. unfold is_exit_command.
  now destruct Hword as [-> | ->].
Qed.

(** X16: the loop ends without an exception only at an exit command, and
    no line before that one is an exit command. *)
Theorem cli_loop_normal_end (inputs : list string) :
  ending (loop inputs) = Ret tt ->
  exists before user_input after,
    inputs = before ++ user_input :: after
    /\ is_exit_command user_input = true
    /\ Forall (fun line => is_exit_command line = false) before.
Proof.
  induction inputs as [|line rest IH]; simpl; [discriminate|].
  destruct (is_exit_command line) eqn:Hexit.
  - intros _. exists [], line, rest. auto.
  - destruct (turn line) as [t [text|e]]; simpl; [|discriminate].
    intros Hend. destruct (IH Hend) as (before & word & after & -> & Hword & Hbefore).
    exists (line :: before), word, after. auto.
Qed.

(** X17: the text a turn prints is the reply header followed by the text
    of the assistant message appended in that turn; the result of the run
    holds the trimmed input line as the user message and that reply, and
    nothing else. *)
Theorem cli_turn_prints_reply (user_input text : string) :
  outcome (turn user_input) = Ret text ->
  exists final reply,
    outcome (graph (user_turn (Str.strip user_input))) = Ret final
    /\ messages final
       = [Message "user" (VStr (Str.strip user_input)); assistant (VStr reply)]
    /\ text = reply_header +:+ reply.
Proof.
  unfold cli_turn, bind, lift.
  pose proof (run_graph_returned (Str.strip user_input)) as Hreturned.
  destruct (graph (user_turn (Str.strip user_input))) as [t [final|e]]; simpl;
    [|discriminate].
  destruct (Hreturned final eq_refl) as (reply & Hmessages & _).
  rewrite Hmessages.
  change [Message "user" (VStr (Str.strip user_input)); assistant reply]
    with ([Message "user" (VStr (Str.strip user_input))] ++ [assistant reply]).
  rewrite getitem_last_snoc. simpl.
  destruct reply; simpl; try discriminate.
  intros [= <-]. eauto.
Qed.

(** X18: a failure of the model call ends the whole loop with that
    exception: nothing is printed for the turn and the later lines are not
    read. *)
Theorem cli_loop_model_failure (user_input : string) (rest : list string) (e : exn) :
  is_exit_command user_input = false ->
  llm_invoke (WHERE_PROMPT (Str.strip user_input)) = Raise e ->
  loop (user_input :: rest)
  = Session [Prompt you_prompt] [LlmInvoke (WHERE_PROMPT (Str.strip user_input))] (Raise e).
Proof.
  intros Hexit Hllm. simpl. rewrite Hexit.
  unfold cli_turn. rewrite run_graph_unfold.
  rewrite (graph_invoke_by_node llm_invoke db_run sql_chain_invoke literal_eval repr
             recursion_limit _ recursion_limit_enough).
  rewrite (validate_customer_node_model_failure llm_invoke db_run literal_eval repr
             (user_turn (Str.strip user_input)) []
             (Message "user" (VStr (Str.strip user_input))) e eq_refl Hllm).
  reflexivity.
Qed.

(** X19: when the run of a turn ends with an assistant message whose
    content is not text, printing the reply raises [TypeError]: the loop
    ends with it, nothing is printed for the turn and the later lines are
    not read. *)
Theorem cli_loop_non_text_reply (user_input : string) (rest : list string)
    (final : GraphState) (v : value) :
  is_exit_command user_input = false ->
  outcome (graph (user_turn (Str.strip user_input))) = Ret final ->
  messages final = [Message "user" (VStr (Str.strip user_input)); assistant v] ->
  (forall s, v <> VStr s) ->
  loop (user_input :: rest)
  = Session [Prompt you_prompt]
            (calls (graph (user_turn (Str.strip user_input))))
            (Raise (TypeError ("can only concatenate str (not " +:+ dquote
                               +:+ type_name v +:+ dquote +:+ ") to str"))).
Proof.
  intros Hexit Hrun Hmessages Hv. simpl. rewrite Hexit.
  unfold cli_turn, bind, lift, calls.
  destruct (graph (user_turn (Str.strip user_input))) as [t [final'|e]];
    simpl in Hrun; [|discriminate].
  injection Hrun as ->. rewrite Hmessages.
  change [Message "user" (VStr (Str.strip user_input)); assistant v]
    with ([Message "user" (VStr (Str.strip user_input))] ++ [assistant v]).
  rewrite getitem_last_snoc. simpl.
  destruct v; simpl; rewrite ?app_nil_r; try reflexivity.
  now contradiction (Hv s).
Qed.

Lemma cli_loop_console (inputs : list string) :
  exists replies,
    console (loop inputs)
    = concat (map (fun text => [Prompt you_prompt; Print text]) replies)
      ++ [Prompt you_prompt]
    /\ (length replies <= length inputs)%nat.
Proof.
  induction inputs as [|line rest (replies & Hconsole & Hlen)]; simpl.
  - exists []. split; [reflexivity | simpl; lia].
  - destruct (is_exit_command line).
    + exists []. split; [reflexivity | simpl; lia].
    + destruct (turn line) as [t [text|e]]; simpl.
      * exists (text :: replies). rewrite Hconsole. split; [reflexivity | simpl; lia].
      * exists []. split; [reflexivity | simpl; lia].
Qed.

(** X20: what the program writes is the two lines of the banner, then for
    each completed turn the prompt followed by one printed reply, and at
    the end one more prompt that gets no reply; there are at most as many
    replies as input lines. *)
Theorem cli_main_console_shape (inputs : list string) :
  exists replies,
    console (cli_main llm_invoke db_run sql_chain_invoke literal_eval repr inputs)
    = banner
      ++ concat (map (fun text => [Prompt you_prompt; Print text]) replies)
      ++ [Prompt you_prompt]
    /\ (length replies <= length inputs)%nat.
Proof.
  destruct (cli_loop_console inputs) as (replies & Hconsole & Hlen).
  exists replies. unfold cli_main. simpl. now rewrite Hconsole.
Qed.

End CommandLoopProperties.

(** ** The further properties at sample inputs *)

Lemma validate_customer_node_reply_shape_witness :
  let state' := {| messages := [sample_message; assistant (VStr lookup_apology)];
                   status := not_found;
                   user_query := VStr "My name is Asha Rao" |} in
  (status state' = validated /\ messages state' = messages sample_state)
  \/ (status state' = not_found
      /\ exists text, messages state' = messages sample_state ++ [assistant (VStr text)]).
Proof.
  intros state'.
  apply (validate_customer_node_reply_shape llm_clause (db_count "0")
           Literal.fragment_only repr_by_type sample_state state').
  vm_compute. reflexivity.
Defined.

Lemma validate_customer_node_reports_failure_witness :
  outcome (validate_customer_node llm_clause (db_returns "[]") Literal.fragment_only
             repr_by_type sample_state)
  = Ret {| messages :=
             [sample_message;
              assistant (VStr (validation_error_prefix +:+ "list index out of range"))];
           status := not_found;
           user_query := VStr "My name is Asha Rao" |}.
Proof.
  apply (validate_customer_node_reports_failure llm_clause (db_returns "[]")
           Literal.fragment_only repr_by_type sample_state [] sample_message
           "name = 'Asha Rao'" (IndexError "list index out of range")).
  - reflexivity.
  - reflexivity.
  - vm_compute. discriminate.
  - right. exists "[]". split; [reflexivity|].
    right. exists (VList []). split; [vm_compute; reflexivity|].
    left. reflexivity.
Defined.

Lemma validate_customer_node_no_match_witness :
  outcome (validate_customer_node llm_clause (db_returns "[(-1,)]")
             (fun _ => Ret (VList [VTuple [VInt (-1)]])) repr_by_type sample_state)
  = Ret {| messages := [sample_message; assistant (VStr lookup_apology)];
           status := not_found;
           user_query := VStr "My name is Asha Rao" |}.
Proof.
  apply (validate_customer_node_no_match llm_clause (db_returns "[(-1,)]")
           (fun _ => Ret (VList [VTuple [VInt (-1)]])) repr_by_type
           sample_state [] sample_message "name = 'Asha Rao'" "[(-1,)]"
           (VList [VTuple [VInt (-1)]]) (VTuple [VInt (-1)]) (-1)).
  - reflexivity.
  - reflexivity.
  - vm_compute. discriminate.
  - reflexivity.
  - reflexivity.
  - reflexivity.
  - reflexivity.
  - lia.
Defined.

Lemma resolve_issue_node_without_query_witness :
  resolve_issue_node chain_down Literal.fragment_only repr_by_type sample_state
  = ([],
     Ret {| messages :=
              [sample_message;
               assistant (VStr (resolution_error_prefix
                                +:+ "'NoneType' object has no attribute 'strip'"))];
            status := resolved;
            user_query := VNone |}).
Proof.
  apply (resolve_issue_node_without_query chain_down Literal.fragment_only repr_by_type
           sample_state); intros s; discriminate.
Defined.

Lemma resolve_issue_node_chain_failure_witness :
  resolve_issue_node chain_down Literal.fragment_only repr_by_type validated_state
  = ([ChainInvoke (full_prompt_of repr_by_type (VStr "My name is Asha Rao"))],
     Ret {| messages :=
              [sample_message;
               assistant (VStr (resolution_error_prefix
                                +:+ "server closed the connection"))];
            status := resolved;
            user_query := VStr "My name is Asha Rao" |}).
Proof.
  apply (resolve_issue_node_chain_failure chain_down Literal.fragment_only repr_by_type
           validated_state (VStr "My name is Asha Rao")
           (Exn "OperationalError" "server closed the connection")); reflexivity.
Defined.

Lemma resolve_issue_node_missing_result_witness :
  outcome (resolve_issue_node chain_without_result Literal.fragment_only repr_by_type
             validated_state)
  = Ret {| messages := [sample_message; assistant (VStr EmptyString)];
           status := resolved;
           user_query := VStr "My name is Asha Rao" |}.
Proof.
  apply (resolve_issue_node_missing_result chain_without_result Literal.fragment_only
           repr_by_type validated_state (VStr "My name is Asha Rao")
           {[ "query" := VStr "SELECT 1" ]}).
  - reflexivity.
  - reflexivity.
  - now apply lookup_singleton_ne.
Defined.


Lemma resolve_issue_node_no_row_witness :
  outcome (resolve_issue_node (chain_returns (VStr "[]")) Literal.fragment_only
             repr_by_type validated_state)
  = Ret {| messages := [sample_message; assistant (VStr "Final Answer: []")];
           status := resolved;
           user_query := VStr "My name is Asha Rao" |}.
Proof.
  apply (resolve_issue_node_no_row (chain_returns (VStr "[]")) Literal.fragment_only
           repr_by_type validated_state (VStr "My name is Asha Rao")
           {[ "result" := VStr "[]" ]} "[]" (VList [])).
  - reflexivity.
  - reflexivity.
  - apply lookup_singleton_eq.
  - vm_compute. reflexivity.
  - vm_compute. reflexivity.
  - left. reflexivity.
Defined.

Lemma resolve_issue_node_non_text_witness :
  outcome (resolve_issue_node (chain_returns (VInt 3)) Literal.fragment_only
             repr_by_type validated_state)
  = Ret {| messages := [sample_message; assistant (VInt 3)];
           status := resolved;
           user_query := VStr "My name is Asha Rao" |}.
Proof.
  apply (resolve_issue_node_non_text (chain_returns (VInt 3)) Literal.fragment_only
           repr_by_type validated_state (VStr "My name is Asha Rao")
           {[ "result" := VInt 3 ]} (VInt 3)).
  - reflexivity.
  - reflexivity.
  - apply lookup_singleton_eq.
  - intros s. discriminate.
Defined.

Lemma graph_invoke_raises_witness :
  outcome (graph_invoke llm_down db_down chain_down Literal.fragment_only repr_by_type
             25 sample_state)
  = Raise connection_refused.
Proof.
  apply (proj2 (graph_invoke_raises llm_down db_down chain_down Literal.fragment_only
                  repr_by_type 25 sample_state connection_refused ltac:(lia))).
  right. exists [], sample_message. split; reflexivity.
Defined.

Lemma graph_invoke_returns_witness :
  exists final path reply ms m,
    Some (resolved_state, [(ValidateCustomer, validated); (ResolveIssue, resolved)])
    = Some (final, path)
    /\ (status final = not_found \/ status final = resolved)
    /\ messages sample_state = ms ++ [m]
    /\ messages final = messages sample_state ++ [assistant reply]
    /\ user_query final = content m.
Proof.
  apply (graph_invoke_returns llm_clause (db_count "3") (chain_returns (VStr rows_text))
           Literal.fragment_only repr_by_type 25 sample_state).
  - lia.
  - vm_compute. reflexivity.
Defined.

Lemma graph_invoke_call_sequence_witness :
  let run := graph_invoke llm_clause (db_count "3") (chain_returns (VStr rows_text))
               Literal.fragment_only repr_by_type 25 sample_state in
  calls run = []
  \/ (exists p, calls run = [LlmInvoke p])
  \/ (exists p q, calls run = [LlmInvoke p; DbRun q])
  \/ (exists p q c, calls run = [LlmInvoke p; DbRun q; ChainInvoke c]).
Proof.
  intros run.
  apply (graph_invoke_call_sequence llm_clause (db_count "3")
           (chain_returns (VStr rows_text)) Literal.fragment_only repr_by_type
           25 sample_state).
  lia.
Defined.

Lemma cli_loop_exit_witness :
  cli_loop llm_down db_down chain_down Literal.fragment_only repr_by_type
    [nbsp +:+ " EXIT "; "My name is Asha Rao"]
  = Session [Prompt you_prompt] [] (Ret tt).
Proof.
  apply (cli_loop_exit llm_down db_down chain_down Literal.fragment_only repr_by_type
           (nbsp +:+ " EXIT ") ["My name is Asha Rao"]).
  left. vm_compute. reflexivity.
Defined.

Lemma cli_loop_normal_end_witness :
  exists before user_input after,
    ["My name is Asha Rao"; "quit"; "hello"] = before ++ user_input :: after
    /\ is_exit_command user_input = true
    /\ Forall (fun line => is_exit_command line = false) before.
Proof.
  apply (cli_loop_normal_end llm_clause (db_count "3") (chain_returns (VStr rows_text))
           Literal.fragment_only repr_by_type
           ["My name is Asha Rao"; "quit"; "hello"]).
  vm_compute. reflexivity.
Defined.

Lemma cli_turn_prints_reply_witness :
  exists final reply,
    outcome (run_graph llm_none db_down chain_down Literal.fragment_only repr_by_type
               (user_turn (Str.strip " hello "))) = Ret final
    /\ messages final
       = [Message "user" (VStr (Str.strip " hello ")); assistant (VStr reply)]
    /\ reply_header +:+ extraction_apology = reply_header +:+ reply.
Proof.
  apply (cli_turn_prints_reply llm_none db_down chain_down Literal.fragment_only
           repr_by_type " hello " (reply_header +:+ extraction_apology)).
  vm_compute. reflexivity.
Defined.

Lemma cli_loop_model_failure_witness :
  cli_loop llm_down db_down chain_down Literal.fragment_only repr_by_type
    ["My name is Asha Rao"; "quit"]
  = Session [Prompt you_prompt] [LlmInvoke (WHERE_PROMPT (Str.strip "My name is Asha Rao"))]
            (Raise connection_refused).
Proof.
  apply (cli_loop_model_failure llm_down db_down chain_down Literal.fragment_only
           repr_by_type "My name is Asha Rao" ["quit"] connection_refused);
    reflexivity.
Defined.

Lemma cli_loop_non_text_reply_witness :
  cli_loop llm_clause (db_count "3") (chain_returns (VInt 3)) Literal.fragment_only
    repr_by_type ["My name is Asha Rao"; "quit"]
  = Session [Prompt you_prompt]
            (calls (run_graph llm_clause (db_count "3") (chain_returns (VInt 3))
                      Literal.fragment_only repr_by_type
                      (user_turn (Str.strip "My name is Asha Rao"))))
            (Raise (TypeError ("can only concatenate str (not " +:+ dquote
                               +:+ type_name (VInt 3) +:+ dquote +:+ ") to str"))).
Proof.
  apply (cli_loop_non_text_reply llm_clause (db_count "3") (chain_returns (VInt 3))
           Literal.fragment_only repr_by_type "My name is Asha Rao" ["quit"]
           {| messages := [sample_message; assistant (VInt 3)];
              status := resolved;
              user_query := VStr "My name is Asha Rao" |} (VInt 3)).
  - reflexivity.
  - vm_compute. reflexivity.
  - reflexivity.
  - intros s. discriminate.
Defined.
